(** * Birdhouse training planner: a shallow embedding of birdhouse_training.py

    The planner reads three JSON tables (level thresholds, birdhouse tiers,
    Leagues multipliers), asks for the current Hunter experience and a target
    level, and steps from benchmark to benchmark, emitting the logs needed
    per birdhouse tier.

    Conventions of the embedding.
    - Python [int] is [Z].  The JSON tables are taken to hold integers.
    - A Python [dict] is an association list in insertion order (the order
      [.items()] iterates in); lookup takes the first binding of a key, which
      is the only one in a real dict.
    - A raised exception is a value of [exn]; a function that may raise
      returns a [result].
    - The [while] loop of [calc_trips_to_target] need not terminate (a
      non-positive yield can stall it), so it is run with fuel: [None] means
      the loop was still running when the fuel ran out.
    - [math.ceil(a / b)] is the exact ceiling of the quotient, which is what
      the source's float division gives for operands below 2^53
      ([float_exact]).  The theorems that depend on the value of the ceiling
      assume tables in that range and show that every division of the run
      stays in it. *)

From Stdlib Require Import ZArith List String Ascii Bool Lia Sorted.
From Stdlib Require Import DecimalString.
Import ListNotations.
Local Open Scope Z_scope.

(** ** Python values and exceptions *)

Module Py.

Inductive exn : Type :=
| KeyError
| ValueError
| ZeroDivisionError
| EOFError.

Inductive result (A : Type) : Type :=
| Ok (a : A)
| Raise (e : exn).
Arguments Ok {A} a.
Arguments Raise {A} e.

Definition bind {A B : Type} (r : result A) (k : A -> result B) : result B :=
  match r with
  | Ok a => k a
  | Raise e => Raise e
  end.

(** A dict as its items, in insertion order. *)
Definition dict (K V : Type) : Type := list (K * V).

Definition keys {K V : Type} (d : dict K V) : list K := map fst d.

Fixpoint get {K V : Type} (eqb : K -> K -> bool) (d : dict K V) (k : K)
  : option V :=
  match d with
  | [] => None
  | (k', v) :: rest => if eqb k k' then Some v else get eqb rest k
  end.

(** [d[k]]: raises [KeyError] when the key is absent. *)
Definition getitem {K V : Type} (eqb : K -> K -> bool) (d : dict K V) (k : K)
  : result V :=
  match get eqb d k with
  | Some v => Ok v
  | None => Raise KeyError
  end.

(** [max(xs)] on integers: raises [ValueError] on an empty sequence. *)
Definition max_of (xs : list Z) : result Z :=
  match xs with
  | [] => Raise ValueError
  | x :: rest => Ok (fold_left Z.max rest x)
  end.

(** [math.ceil(a / b)] on integers.  The source divides in floating point
    and rounds up; on integers below 2^53 in absolute value that is the exact
    ceiling of the quotient, which is what is modelled.  [Z.div] rounds
    towards minus infinity like Python's [//], for either sign of [b].
    Beyond that range (see [float_exact] below) the float quotient may round
    across an integer, underflow to zero or overflow, none of which is
    modelled: the theorems that rest on the value of the ceiling assume
    tables within the range and show that every division stays in it. *)
Definition ceil_div (a b : Z) : result Z :=
  if b =? 0 then Raise ZeroDivisionError else Ok (- ((- a) / b)).

(** [s.split(" ")[0]]: the text before the first space. *)
Fixpoint split_first (s : string) : string :=
  match s with
  | EmptyString => EmptyString
  | String c rest =>
      if Ascii.eqb c " "%char then EmptyString else String c (split_first rest)
  end.

(** [str(n)] for an integer, as an f-string interpolates it. *)
Definition str_of_int (n : Z) : string := NilZero.string_of_int (Z.to_int n).

End Py.

Import Py.

Notation "x <- c ;; k" := (Py.bind c (fun x => k))
  (at level 61, c at next level, right associativity).
Notation "' pat <- c ;; k" := (Py.bind c (fun x => match x with pat => k end))
  (at level 61, pat pattern, c at next level, right associativity).

(** ** The data tables *)

(** [levels]: level -> minimum experience, after the keys were recast to
    integers. *)
Definition LevelTable : Type := dict Z Z.

(** One birdhouse tier: the inner JSON object, with the fields
    ["Hunter Level"] and ["Hunter XP"] among its items. *)
Definition Tier : Type := dict string Z.

(** [birdhouses]: tier name -> tier, in the order of the JSON file. *)
Definition TierTable : Type := dict string Tier.

(** [leagues_multipliers]: relic tier -> experience multiplier. *)
Definition MultiplierTable : Type := dict Z Z.

(** One entry of the training path: the dict [format_logs] builds. *)
Definition PlanStep : Type := dict string Z.

Definition level_of (levels : LevelTable) (l : Z) : option Z :=
  get Z.eqb levels l.

Definition tier_of (birdhouses : TierTable) (name : string) : option Tier :=
  get String.eqb birdhouses name.

Definition field (t : Tier) (name : string) : option Z :=
  get String.eqb t name.

Definition hunter_level (t : Tier) : result Z :=
  getitem String.eqb t "Hunter Level"%string.

Definition hunter_xp (t : Tier) : result Z :=
  getitem String.eqb t "Hunter XP"%string.

(** ** The planner *)

Section Planner.

(** The module-level table [levels], loaded once from rs_levels.json. *)
Variable levels : LevelTable.

(** The scan of [check_level]: [for level, experience in levels.items()]. *)
Fixpoint check_level_scan (items : list (Z * Z)) (xp_to_check : Z)
  : option Z :=
  match items with
  | [] => None
  | (level, experience) :: rest =>
      if xp_to_check <? experience then Some (level - 1)
      else check_level_scan rest xp_to_check
  end.

Definition check_level (xp_to_check : Z) : result Z :=
  match check_level_scan levels xp_to_check with
  | Some l => Ok l
  | None => max_of (keys levels)
  end.

(** The scan of [check_birdhouse_tier], with the running [current_tier]. *)
Fixpoint check_birdhouse_tier_scan (current_tier : string)
    (items : list (string * Tier)) (level : Z)
  : result (string * option string) :=
  match items with
  | [] => Ok (current_tier, None)
  | (tier, tier_level) :: rest =>
      unlock <- hunter_level tier_level ;;
      if level <? unlock then Ok (current_tier, Some tier)
      else check_birdhouse_tier_scan tier rest level
  end.

Definition check_birdhouse_tier (level : Z) (birdhouses : TierTable)
  : result (string * option string) :=
  check_birdhouse_tier_scan "None"%string birdhouses level.

Definition calc_trips_to_next_benchmark (current_xp target_level : Z)
    (birdhouses : TierTable) : result (Z * Z * Z) :=
  target_xp <- getitem Z.eqb levels target_level ;;
  let xp_to_target := target_xp - current_xp in
  current_level <- check_level current_xp ;;
  tiers <- check_birdhouse_tier current_level birdhouses ;;
  let birdhouse_tier := fst tiers in
  tier <- getitem String.eqb birdhouses birdhouse_tier ;;
  yield <- hunter_xp tier ;;
  let trip_xp := yield * 4 in
  total_trips <- ceil_div xp_to_target trip_xp ;;
  let xp_gain := total_trips * trip_xp in
  let end_xp := xp_gain + current_xp in
  let logs_needed := total_trips * 4 in
  Ok (total_trips, logs_needed, end_xp).

Definition format_logs (birdhouse_tier : string) (logs_needed : Z) : PlanStep :=
  let log_tier := split_first birdhouse_tier in
  [(String.append log_tier " logs", logs_needed)].

(** The [if]/[else] that picks the next benchmark inside the loop of
    [calc_trips_to_target].  [or] short-circuits: the tier table is only
    consulted when there is a next tier. *)
Definition next_benchmark_of (target_level : Z) (birdhouses : TierTable)
    (next_tier : option string) : result Z :=
  match next_tier with
  | None => getitem Z.eqb levels target_level
  | Some nt =>
      tier <- getitem String.eqb birdhouses nt ;;
      unlock <- hunter_level tier ;;
      if target_level <? unlock then getitem Z.eqb levels target_level
      else getitem Z.eqb levels unlock
  end.

(** The variables the loop of [calc_trips_to_target] carries around. *)
Record loop_state : Type := mk_state {
  current_xp : Z;
  current_level : Z;
  logs_to_target : list PlanStep
}.

(** The variables one iteration assigns on its way. *)
Record iteration : Type := mk_iteration {
  current_tier : string;
  next_tier : option string;
  next_benchmark : Z;
  birdhouse_xp : Z;
  trips : Z;
  xp_gain : Z;
  logs_needed : Z
}.

Definition loop_cond (target_level : Z) (st : loop_state) : bool :=
  current_level st <? target_level.

(** One run of the loop body: the locals it computed and the state it
    leaves. *)
Definition loop_body (target_level : Z) (birdhouses : TierTable)
    (st : loop_state) : result (iteration * loop_state) :=
  ' (cur, next) <- check_birdhouse_tier (current_level st) birdhouses ;;
  benchmark <- next_benchmark_of target_level birdhouses next ;;
  tier <- getitem String.eqb birdhouses cur ;;
  yield <- hunter_xp tier ;;
  let bxp := yield * 4 in
  n <- ceil_div (benchmark - current_xp st) bxp ;;
  let gain := n * bxp in
  let xp' := current_xp st + gain in
  let logs := n * 4 in
  let path := (logs_to_target st ++ [format_logs cur logs])%list in
  level' <- check_level xp' ;;
  Ok (mk_iteration cur next benchmark bxp n gain logs,
      mk_state xp' level' path).

(** [while current_level < target_level: ...], with fuel. *)
Fixpoint while_loop (fuel : nat) (target_level : Z) (birdhouses : TierTable)
    (st : loop_state) : option (result loop_state) :=
  match fuel with
  | O => None
  | S fuel' =>
      if loop_cond target_level st then
        match loop_body target_level birdhouses st with
        | Ok (_, st') => while_loop fuel' target_level birdhouses st'
        | Raise e => Some (Raise e)
        end
      else Some (Ok st)
  end.

(** The iterations the loop completes within the fuel, in order: for each,
    the state it started from, its locals and the state it left. *)
Fixpoint loop_iterations (fuel : nat) (target_level : Z)
    (birdhouses : TierTable) (st : loop_state)
  : list (loop_state * iteration * loop_state) :=
  match fuel with
  | O => []
  | S fuel' =>
      if loop_cond target_level st then
        match loop_body target_level birdhouses st with
        | Ok (it, st') =>
            (st, it, st') :: loop_iterations fuel' target_level birdhouses st'
        | Raise _ => []
        end
      else []
  end.

Definition initial_state (xp : Z) : result loop_state :=
  level <- check_level xp ;;
  Ok (mk_state xp level []).

Definition calc_trips_to_target (fuel : nat) (current_xp0 target_level : Z)
    (birdhouses : TierTable) : option (result (list PlanStep)) :=
  match initial_state current_xp0 with
  | Raise e => Some (Raise e)
  | Ok st =>
      match while_loop fuel target_level birdhouses st with
      | None => None
      | Some (Raise e) => Some (Raise e)
      | Some (Ok st') => Some (Ok (logs_to_target st'))
      end
  end.

End Planner.

(** ** The Leagues multiplier *)

(** The inner comprehension of [main]:
    [{k: (v * multiplier if k == "Hunter XP" else v) for k, v in value.items()}]. *)
Definition scale_tier (multiplier : Z) (value : Tier) : Tier :=
  map (fun kv : string * Z =>
         (fst kv,
          if String.eqb (fst kv) "Hunter XP" then snd kv * multiplier
          else snd kv))
      value.

(** The outer comprehension, over [base_birdhouses.items()]. *)
Definition scale_birdhouses (multiplier : Z) (base_birdhouses : TierTable)
  : TierTable :=
  map (fun entry : string * Tier => (fst entry, scale_tier multiplier (snd entry)))
      base_birdhouses.

(** The table [main] plans with: scaled in Leagues mode, the base table
    itself otherwise. *)
Definition effective_birdhouses (leagues : option Z)
    (base_birdhouses : TierTable) : TierTable :=
  match leagues with
  | Some multiplier => scale_birdhouses multiplier base_birdhouses
  | None => base_birdhouses
  end.

(** ** The interactive shell *)

(** What reaches the terminal: the prompt of an [input] call, or a line
    written by [print]. *)
Inductive event : Type :=
| Prompt (text : string)
| Print (text : string).

(** The lines still to be typed, and what was shown so far (oldest first). *)
Record world : Type := mk_world {
  pending : list string;
  shown : list event
}.

Definition io (A : Type) : Type := world -> result A * world.

Definition io_ret {A : Type} (a : A) : io A := fun w => (Ok a, w).

Definition io_bind {A B : Type} (c : io A) (k : A -> io B) : io B :=
  fun w =>
    match c w with
    | (Ok a, w') => k a w'
    | (Raise e, w') => (Raise e, w')
    end.

Definition lift {A : Type} (r : result A) : io A := fun w => (r, w).

Definition show (e : event) (w : world) : world :=
  mk_world (pending w) (shown w ++ [e]).

Definition print (text : string) : io unit :=
  fun w => (Ok tt, show (Print text) w).

(** [input(prompt)]: [EOFError] when nothing is left to read. *)
Definition input (prompt : string) : io string :=
  fun w =>
    match pending w with
    | [] => (Raise EOFError, show (Prompt prompt) w)
    | line :: rest => (Ok line, mk_world rest (shown w ++ [Prompt prompt]))
    end.

Notation "x <~ c ;; k" := (io_bind c (fun x => k))
  (at level 61, c at next level, right associativity).

Definition newline : string := String (ascii_of_nat 10) EmptyString.

Section Shell.

Local Open Scope string_scope.
Local Open Scope Z_scope.

Variable levels : LevelTable.
Variable leagues_multipliers : MultiplierTable.
Variable base_birdhouses : TierTable.

(** Python's built-in [int] on a line of text: [Raise ValueError] on text
    that is not an integer literal.  Its parsing is the interpreter's, not
    this program's. *)
Variable py_int : string -> result Z.

(** [get_inputs].  Neither [int] on text nor a comparison of integers raises
    [TypeError], so the two [except TypeError] handlers never run: a parse
    failure ([ValueError]) or an unknown target level ([KeyError]) leaves the
    function, and the body of [while True] runs once.  The pair
    [(None, None)] is [None]; [(experience, target_level)] is [Some]. *)
Definition get_inputs : io (option (Z * Z)) :=
  text <~ input "What is your current Hunter xp? (Example: 2224614) " ;;
  experience <~ lift (py_int text) ;;
  minimum <~ lift (getitem Z.eqb levels 5) ;;
  if experience <? minimum then
    _ <~ print "You need at least 5 Hunter to make a birdhouse." ;;
    io_ret None
  else
    text' <~ input "What is your target Hunter level? (Example: 99) " ;;
    target_level <~ lift (py_int text') ;;
    target_xp <~ lift (getitem Z.eqb levels target_level) ;;
    if experience >? target_xp then
      _ <~ print "You've already passed your target." ;;
      io_ret None
    else io_ret (Some (experience, target_level)).

Definition check_leagues : io bool :=
  check <~ input "Type 1 if this is Leagues. " ;;
  io_ret (String.eqb check "1").

(** [get_relic_multiplier]: asks again while the tier is out of range; each
    round reads a line, so the recursion is on the lines left. *)
Fixpoint get_relic_multiplier_on (lines : list string) (out : list event)
  : result Z * world :=
  let out' := (out ++ [Prompt "What tier have you unlocked? (1-7) "])%list in
  match lines with
  | [] => (Raise EOFError, mk_world [] out')
  | text :: rest =>
      match py_int text with
      | Raise e => (Raise e, mk_world rest out')
      | Ok tier =>
          if (1 >? tier) || (tier >? 7) then
            get_relic_multiplier_on rest
              (out' ++ [Print "Please enter an integer between 1 and 7."])%list
          else (Ok tier, mk_world rest out')
      end
  end.

Definition get_relic_multiplier : io Z :=
  fun w => get_relic_multiplier_on (pending w) (shown w).

Definition show_items (tier : PlanStep) : list event :=
  map (fun kv : string * Z =>
         Print (str_of_int (snd kv) ++ " " ++ fst kv ++ " "))
      tier.

Definition display_plan (starting_xp : Z) (train_path : list PlanStep)
  : io unit :=
  fun w =>
    (Ok tt,
     mk_world (pending w)
       (shown w
        ++ Print (newline ++ "Starting from " ++ str_of_int starting_xp
                  ++ "xp, you will need:" ++ newline)
        :: flat_map show_items train_path)%list).

(** [main] up to the planning step: the inputs, and the tier table chosen. *)
Definition main_setup : io (option (Z * Z) * TierTable) :=
  inputs <~ get_inputs ;;
  leagues_flag <~ check_leagues ;;
  if leagues_flag : bool then
    relic_tier <~ get_relic_multiplier ;;
    multiplier <~ lift (getitem Z.eqb leagues_multipliers relic_tier) ;;
    _ <~ print ("Your XP modifier is " ++ str_of_int multiplier) ;;
    io_ret (inputs, effective_birdhouses (Some multiplier) base_birdhouses)
  else io_ret (inputs, effective_birdhouses None base_birdhouses).

(** [main].  The source returns nothing; the model returns the value of
    [training_path], [None] when the planning step was skipped.
    [if end_level:] is false for [None] and for [0]. *)
Definition main (fuel : nat) (w : world)
  : option (result (option (list PlanStep)) * world) :=
  match main_setup w with
  | (Raise e, w') => Some (Raise e, w')
  | (Ok (None, _), w') => Some (Ok None, w')
  | (Ok (Some (start_xp, end_level), birdhouses), w') =>
      if end_level =? 0 then Some (Ok None, w')
      else
        match calc_trips_to_target levels fuel start_xp end_level birdhouses with
        | None => None
        | Some (Raise e) => Some (Raise e, w')
        | Some (Ok training_path) =>
            Some (Ok (Some training_path),
                  snd (display_plan start_xp training_path w'))
        end
  end.

End Shell.

(** ** Invariants of the tables *)

(** The level table as the data model has it: consecutive levels in
    ascending order, with strictly increasing thresholds. *)
Fixpoint levels_ascending (levels : LevelTable) : bool :=
  match levels with
  | [] => true
  | (l, e) :: rest =>
      match rest with
      | [] => true
      | (l', e') :: _ => (l' =? l + 1) && (e <? e') && levels_ascending rest
      end
  end.

(** The unlock level of a table entry, when it has one. *)
Definition unlock_of (entry : string * Tier) : option Z :=
  field (snd entry) "Hunter Level".

Definition yield_of (entry : string * Tier) : option Z :=
  field (snd entry) "Hunter XP".

(** Every tier records its unlock level. *)
Definition has_unlock (entry : string * Tier) : Prop :=
  exists u, unlock_of entry = Some u.

(** Every tier records a positive yield. *)
Definition positive_yield (entry : string * Tier) : Prop :=
  exists y, yield_of entry = Some y /\ 0 < y.

Definition unlocked_at (level : Z) (entry : string * Tier) : Prop :=
  exists u, unlock_of entry = Some u /\ u <= level.

Definition locked_at (level : Z) (entry : string * Tier) : Prop :=
  exists u, unlock_of entry = Some u /\ level < u.

(** Tiers listed in unlock order (ties allowed). *)
Fixpoint tiers_in_unlock_order (birdhouses : TierTable) : bool :=
  match birdhouses with
  | [] => true
  | entry :: rest =>
      match unlock_of entry with
      | None => false
      | Some u =>
          match rest with
          | [] => true
          | entry' :: _ =>
              match unlock_of entry' with
              | None => false
              | Some u' => (u <=? u') && tiers_in_unlock_order rest
              end
          end
      end
  end.

(** Does the tier unlock strictly between two levels? *)
Definition unlocks_between (low high : Z) (entry : string * Tier) : bool :=
  match unlock_of entry with
  | Some u => (low <? u) && (u <? high)
  | None => false
  end.

(** The number of tiers that unlock strictly between two levels. *)
Definition tiers_between (low high : Z) (birdhouses : TierTable) : nat :=
  List.length (filter (unlocks_between low high) birdhouses).

(** The states at the head of the loop: the first one, then the one each
    completed iteration leaves. *)
Definition loop_states (levels : LevelTable) (fuel : nat) (target_level : Z)
    (birdhouses : TierTable) (st : loop_state) : list loop_state :=
  st :: map snd (loop_iterations levels fuel target_level birdhouses st).

(** The benchmark as the design describes it: the target's threshold when
    there is no next tier or the next tier unlocks above the target, the
    threshold of the next tier's unlock level otherwise. *)
Definition benchmark_as_designed (levels : LevelTable) (target_level : Z)
    (birdhouses : TierTable) (next : option string) (benchmark : Z) : Prop :=
  match next with
  | None => level_of levels target_level = Some benchmark
  | Some nt =>
      exists tier u,
        tier_of birdhouses nt = Some tier /\
        field tier "Hunter Level" = Some u /\
        (target_level < u -> level_of levels target_level = Some benchmark) /\
        (u <= target_level -> level_of levels u = Some benchmark)
  end.

(** The level a loop state carries is the one its experience resolves to
    (the loop re-resolves it at the end of every iteration). *)
Definition level_resolved (levels : LevelTable) (st : loop_state) : Prop :=
  check_level levels (current_xp st) = Ok (current_level st).

(** The bound on the iterations still to run from a state: none once the
    target level is reached, else one more than the tiers that unlock between
    the state's level and the target. *)
Definition iterations_left (target_level : Z) (birdhouses : TierTable)
    (st : loop_state) : nat :=
  if loop_cond target_level st
  then S (tiers_between (current_level st) target_level birdhouses)
  else O.

(** The plan step an iteration appends. *)
Definition step_of (r : loop_state * iteration * loop_state) : PlanStep :=
  format_logs (current_tier (snd (fst r))) (logs_needed (snd (fst r))).

(** The experience gained over a run of iterations. *)
Definition total_gain (its : list (loop_state * iteration * loop_state)) : Z :=
  fold_right (fun r acc => xp_gain (snd (fst r)) + acc) 0 its.

(** Does the text contain a space? *)
Fixpoint has_space (s : string) : bool :=
  match s with
  | EmptyString => false
  | String c rest => Ascii.eqb c " "%char || has_space rest
  end.

(** A line [get_relic_multiplier] reads and rejects: an integer outside
    1..7. *)
Definition rejected_tier (py_int : string -> result Z) (line : string) : Prop :=
  exists z, py_int line = Ok z /\ (z < 1 \/ 7 < z).

(** What one rejected line leaves on the terminal. *)
Definition rejection : list event :=
  [Prompt "What tier have you unlocked? (1-7) ";
   Print "Please enter an integer between 1 and 7."].

(** How many tiers the scan of [check_birdhouse_tier] walks past at a
    level: the leading tiers that are unlocked. *)
Fixpoint tiers_walked (level : Z) (items : TierTable) : nat :=
  match items with
  | [] => O
  | entry :: rest =>
      match unlock_of entry with
      | Some u => if level <? u then O else S (tiers_walked level rest)
      | None => O
      end
  end.

(** The position in the table of the current tier at a level (when at least
    the first tier is unlocked). *)
Definition current_position (birdhouses : TierTable) (st : loop_state) : nat :=
  pred (tiers_walked (current_level st) birdhouses).

(** The states the loop goes through from valid input: the level is the
    resolved one and the experience has not fallen below the first tier's
    threshold [e0]. *)
Definition on_track (levels : LevelTable) (e0 : Z) (st : loop_state) : Prop :=
  level_resolved levels st /\ e0 <= current_xp st.

(** ** The range of exact division *)

(** 2^53: up to it every integer is a float, without rounding. *)
Definition float_limit : Z := 9007199254740992.

(** Operands on which the source's [math.ceil(a / b)] is the exact ceiling:
    both are floats without rounding, the divisor is not zero, and the
    correctly rounded quotient, off by less than [1 / |b|], cannot cross an
    integer, underflow or overflow. *)
Definition float_exact (a b : Z) : Prop :=
  Z.abs a < float_limit /\ 0 < Z.abs b < float_limit.

(** A level table whose thresholds are not negative and below 2^53. *)
Definition thresholds_in_range (levels : LevelTable) : Prop :=
  Forall (fun p => 0 <= snd p < float_limit) levels.

(** A tier whose yield is positive, with a trip yield below 2^53. *)
Definition yield_in_range (entry : string * Tier) : Prop :=
  exists y, yield_of entry = Some y /\ 0 < y /\ y * 4 < float_limit.

(** Every division the loop makes within the fuel has operands in the range
    of exact division. *)
Definition divisions_exact (levels : LevelTable) (fuel : nat)
    (target_level : Z) (birdhouses : TierTable) (st : loop_state) : Prop :=
  Forall (fun r =>
            float_exact
              (next_benchmark (snd (fst r)) - current_xp (fst (fst r)))
              (birdhouse_xp (snd (fst r))))
         (loop_iterations levels fuel target_level birdhouses st).

(** ** Sample data *)

Module Sample.

Local Open Scope string_scope.
Local Open Scope Z_scope.

(** The first twenty Hunter levels. *)
Definition levels : LevelTable :=
  [(1, 0); (2, 83); (3, 174); (4, 276); (5, 388); (6, 512); (7, 650);
   (8, 801); (9, 969); (10, 1154); (11, 1358); (12, 1584); (13, 1833);
   (14, 2107); (15, 2411); (16, 2746); (17, 3115); (18, 3523); (19, 3973);
   (20, 4470)].

Definition regular : Tier := [("Hunter Level", 5); ("Hunter XP", 280)].
Definition oak : Tier := [("Hunter Level", 15); ("Hunter XP", 420)].

Definition regular_only : TierTable := [("Regular birdhouse", regular)].

Definition birdhouses : TierTable :=
  [("Regular birdhouse", regular); ("Oak birdhouse", oak)].

Definition multipliers : MultiplierTable := [(1, 5); (2, 8); (3, 12)].

(** [int] on a plain run of decimal digits, which is all the sample
    sessions type (the signs, blanks and underscores Python's [int] also
    reads are not covered). *)
Fixpoint digits (s : string) (acc : Z) : option Z :=
  match s with
  | EmptyString => Some acc
  | String c rest =>
      let d := Z.of_nat (nat_of_ascii c) - 48 in
      if (0 <=? d) && (d <=? 9) then digits rest (acc * 10 + d) else None
  end.

Definition decimal_int (s : string) : result Z :=
  match s with
  | EmptyString => Raise ValueError
  | _ => match digits s 0 with
         | Some z => Ok z
         | None => Raise ValueError
         end
  end.

(** A session that types an experience above the threshold of the target
    level 10, and one that types exactly that threshold. *)
Definition past_target : world := mk_world ["1200"; "10"; "0"] [].
Definition at_target : world := mk_world ["1154"; "10"; "0"] [].

(** More sessions: experience below the level-5 threshold, a line that is
    no number, a target level the table does not have, a plain session and
    one in Leagues mode (relic tier 2), and answers to the relic tier
    prompt. *)
Definition below_minimum : world := mk_world ["50"; "10"] [].
Definition garbled : world := mk_world ["4oo"; "10"] [].
Definition unknown_target : world := mk_world ["400"; "100"; "0"] [].
Definition plain_session : world := mk_world ["400"; "20"; "0"] [].
Definition leagues_session : world := mk_world ["400"; "20"; "1"; "2"] [].
Definition relic_answers : world := mk_world ["9"; "0"; "3"; "7"] [].
Definition relic_refused : world := mk_world ["9"; "0"] [].

(** Tier tables with a yield of zero and with a negative yield. *)
Definition barren : TierTable :=
  [("Regular birdhouse", [("Hunter Level", 5); ("Hunter XP", 0)])].
Definition draining : TierTable :=
  [("Regular birdhouse", [("Hunter Level", 5); ("Hunter XP", -280)])].

End Sample.

(** * Facts about the tables *)

Section DictFacts.

Lemma getitem_ok {K V : Type} (eqb : K -> K -> bool) (d : dict K V) k v :
  getitem eqb d k = Ok v <-> get eqb d k = Some v.
Proof.
  unfold getitem. destruct (get eqb d k); split; intro H;
    inversion H; reflexivity.
Qed.

Lemma level_of_in (levels : LevelTable) k e :
  level_of levels k = Some e -> In (k, e) levels.
Proof.
  unfold level_of. induction levels as [|[k' e'] rest IH]; simpl.
  - discriminate.
  - destruct (Z.eqb_spec k k') as [->|Hne].
    + intros [= ->]. now left.
    + intro H. right. now apply IH.
Qed.

Lemma in_keys_level_of (levels : LevelTable) k :
  In k (keys levels) -> exists e, level_of levels k = Some e.
Proof.
  unfold level_of, keys. induction levels as [|[k' e'] rest IH]; simpl.
  - intros [].
  - intros [Heq|Hin].
    + subst. rewrite Z.eqb_refl. now exists e'.
    + destruct (Z.eqb_spec k k'); [now exists e'|now apply IH].
Qed.

Lemma level_of_in_keys (levels : LevelTable) k e :
  level_of levels k = Some e -> In k (keys levels).
Proof.
  intro H. apply level_of_in in H. unfold keys.
  change k with (fst (k, e)). now apply in_map.
Qed.

Lemma fold_max_ge (xs : list Z) : forall x,
  x <= fold_left Z.max xs x /\
  (forall y, In y xs -> y <= fold_left Z.max xs x) /\
  In (fold_left Z.max xs x) (x :: xs).
Proof.
  induction xs as [|a xs IH]; intro x; simpl.
  - repeat split; [lia | intros y [] | now left].
  - destruct (IH (Z.max x a)) as (Hge & Hall & Hin). repeat split.
    + lia.
    + intros y [->|Hy]; [lia | now apply Hall].
    + destruct Hin as [Heq|Hin]; [|now right; right].
      rewrite <- Heq. destruct (Z.max_spec x a) as [[_ ->]|[_ ->]];
        [right; now left | now left].
Qed.

Lemma max_of_spec (xs : list Z) k :
  In k xs -> exists m, max_of xs = Ok m /\ k <= m /\ In m xs.
Proof.
  destruct xs as [|x xs]; [intros []|]. intro Hk. simpl.
  exists (fold_left Z.max xs x).
  destruct (fold_max_ge xs x) as (Hge & Hall & Hin).
  split; [reflexivity|]. split; [|exact Hin].
  destruct Hk as [->|Hk]; [exact Hge | now apply Hall].
Qed.

Lemma max_of_upper (xs : list Z) m k :
  max_of xs = Ok m -> In k xs -> k <= m.
Proof.
  intros Hm Hk. destruct (max_of_spec xs k Hk) as (m' & Hm' & Hle & _).
  congruence.
Qed.

End DictFacts.

Section LevelFacts.

Lemma ascending_tail l e rest :
  levels_ascending ((l, e) :: rest) = true -> levels_ascending rest = true.
Proof.
  simpl. destruct rest as [|[l' e'] rest']; [reflexivity|].
  intro H. apply andb_prop in H. tauto.
Qed.

Lemma ascending_suffix pre suf :
  levels_ascending (pre ++ suf) = true -> levels_ascending suf = true.
Proof.
  induction pre as [|[l e] pre IH]; [trivial|].
  intro H. apply IH. exact (ascending_tail _ _ _ H).
Qed.

(** Everything after the head is a higher level with a higher threshold. *)
Lemma ascending_head_lt rest : forall l e k v,
  levels_ascending ((l, e) :: rest) = true ->
  In (k, v) rest -> l < k /\ e < v.
Proof.
  induction rest as [|[l' e'] rest' IH]; intros l e k v Hasc Hin.
  - destruct Hin.
  - pose proof (ascending_tail _ _ _ Hasc) as Htl.
    simpl in Hasc. apply andb_prop in Hasc. destruct Hasc as [Hhd _].
    apply andb_prop in Hhd. destruct Hhd as [Hk He].
    apply Z.eqb_eq in Hk. apply Z.ltb_lt in He.
    destruct Hin as [[= <- <-]|Hin]; [lia|].
    destruct (IH l' e' k v Htl Hin). lia.
Qed.

Lemma ascending_in_level_of levels : forall k e,
  levels_ascending levels = true ->
  In (k, e) levels -> level_of levels k = Some e.
Proof.
  unfold level_of.
  induction levels as [|[l0 e0] rest IH]; intros k e Hasc Hin.
  - destruct Hin.
  - simpl. destruct Hin as [[= -> ->]|Hin].
    + now rewrite Z.eqb_refl.
    + destruct (ascending_head_lt rest l0 e0 k e Hasc Hin) as [Hlt _].
      destruct (Z.eqb_spec k l0); [lia|].
      apply IH; [exact (ascending_tail _ _ _ Hasc) | exact Hin].
Qed.

(** Thresholds grow strictly with the level. *)
Lemma ascending_in_mono levels : forall l1 e1 l2 e2,
  levels_ascending levels = true ->
  In (l1, e1) levels -> In (l2, e2) levels -> l1 < l2 -> e1 < e2.
Proof.
  induction levels as [|[l0 e0] rest IH]; intros l1 e1 l2 e2 Hasc H1 H2 Hlt.
  - destruct H1.
  - pose proof (ascending_tail _ _ _ Hasc) as Htl.
    destruct H1 as [[= -> ->]|H1], H2 as [[= -> ->]|H2].
    + lia.
    + exact (proj2 (ascending_head_lt rest _ _ _ _ Hasc H2)).
    + pose proof (ascending_head_lt rest _ _ _ _ Hasc H1). lia.
    + exact (IH _ _ _ _ Htl H1 H2 Hlt).
Qed.

Lemma level_of_mono levels l1 e1 l2 e2 :
  levels_ascending levels = true ->
  level_of levels l1 = Some e1 -> level_of levels l2 = Some e2 ->
  l1 <= l2 -> e1 <= e2.
Proof.
  intros Hasc H1 H2 Hle.
  destruct (Z.eq_dec l1 l2) as [->|Hne].
  - rewrite H1 in H2. injection H2 as ->. lia.
  - apply level_of_in in H1, H2.
    pose proof (ascending_in_mono levels _ _ _ _ Hasc H1 H2). lia.
Qed.

(** The levels of the table are consecutive: nothing is missing between two
    of them. *)
Lemma level_of_between levels : forall lo hi elo ehi k,
  levels_ascending levels = true ->
  level_of levels lo = Some elo -> level_of levels hi = Some ehi ->
  lo <= k <= hi -> exists e, level_of levels k = Some e.
Proof.
  induction levels as [|[l0 e0] rest IH]; intros lo hi elo ehi k Hasc Hlo Hhi Hk.
  - discriminate.
  - pose proof (ascending_tail _ _ _ Hasc) as Htl.
    destruct (Z.eq_dec k l0) as [->|Hne].
    { exists e0. unfold level_of. simpl. now rewrite Z.eqb_refl. }
    assert (Hlow : l0 <= lo).
    { apply level_of_in in Hlo. destruct Hlo as [[= -> ->]|Hlo]; [lia|].
      pose proof (ascending_head_lt rest _ _ _ _ Hasc Hlo). lia. }
    assert (Hhi' : level_of rest hi = Some ehi).
    { revert Hhi. unfold level_of. simpl.
      destruct (Z.eqb_spec hi l0); [lia|trivial]. }
    destruct rest as [|[l1 e1] rest'].
    { discriminate. }
    assert (Hl1 : l1 = l0 + 1).
    { simpl in Hasc. apply andb_prop in Hasc. destruct Hasc as [Hhd _].
      apply andb_prop in Hhd. destruct Hhd as [Hk1 _].
      now apply Z.eqb_eq in Hk1. }
    assert (H1 : level_of ((l1, e1) :: rest') l1 = Some e1).
    { unfold level_of. simpl. now rewrite Z.eqb_refl. }
    destruct (IH l1 hi e1 ehi k Htl H1 Hhi') as [e He]; [lia|].
    exists e. unfold level_of. simpl.
    destruct (Z.eqb_spec k l0); [lia|exact He].
Qed.

Lemma scan_some items : forall x l,
  check_level_scan items x = Some l ->
  exists pre e post,
    items = pre ++ (l + 1, e) :: post /\ x < e /\
    Forall (fun p => snd p <= x) pre.
Proof.
  induction items as [|[level experience] rest IH]; intros x l; simpl.
  - discriminate.
  - destruct (Z.ltb_spec x experience) as [Hlt|Hge].
    + intros [= <-]. exists [], experience, rest.
      replace (level - 1 + 1) with level by lia. now repeat split.
    + intro H. destruct (IH x l H) as (pre & e & post & -> & Hx & Hpre).
      exists ((level, experience) :: pre), e, post.
      repeat split; [exact Hx|]. constructor; [exact Hge | exact Hpre].
Qed.

Lemma scan_none items : forall x,
  check_level_scan items x = None -> Forall (fun p => snd p <= x) items.
Proof.
  induction items as [|[level experience] rest IH]; intros x; simpl.
  - constructor.
  - destruct (Z.ltb_spec x experience) as [Hlt|Hge]; [discriminate|].
    intro H. constructor; [exact Hge | now apply IH].
Qed.

End LevelFacts.

(** * The level resolver *)

Section CheckLevel.

Variable levels : LevelTable.
Hypothesis ascending : levels_ascending levels = true.

(** A level of the table above the resolved one has not been reached. *)
Lemma check_level_upper x l t et :
  check_level levels x = Ok l -> level_of levels t = Some et ->
  l < t -> x < et.
Proof.
  unfold check_level. intros Hl Ht Hlt.
  destruct (check_level_scan levels x) as [l'|] eqn:Hscan.
  - injection Hl as ->.
    destruct (scan_some _ _ _ Hscan) as (pre & e & post & Heq & Hx & _).
    assert (He : level_of levels (l + 1) = Some e).
    { apply ascending_in_level_of; [exact ascending|].
      rewrite Heq. apply in_or_app. right. now left. }
    pose proof (level_of_mono levels _ _ _ _ ascending He Ht). lia.
  - pose proof (max_of_upper _ _ _ Hl (level_of_in_keys _ _ _ Ht)). lia.
Qed.

(** A level of the table whose threshold is met is resolved at least. *)
Lemma check_level_lower x t et :
  level_of levels t = Some et -> et <= x ->
  exists l, check_level levels x = Ok l /\ t <= l.
Proof.
  unfold check_level. intros Ht Hle.
  destruct (check_level_scan levels x) as [l'|] eqn:Hscan.
  - exists l'. split; [reflexivity|].
    destruct (scan_some _ _ _ Hscan) as (pre & e & post & Heq & Hx & _).
    assert (He : level_of levels (l' + 1) = Some e).
    { apply ascending_in_level_of; [exact ascending|].
      rewrite Heq. apply in_or_app. right. now left. }
    destruct (Z_le_gt_dec t l') as [|Hgt]; [assumption|].
    pose proof (level_of_mono levels _ _ _ _ ascending He Ht). lia.
  - destruct (max_of_spec _ _ (level_of_in_keys _ _ _ Ht)) as (m & Hm & Hge & _).
    exists m. now split.
Qed.

(** A level of the table whose threshold is not met is not resolved. *)
Lemma check_level_below x l t et :
  check_level levels x = Ok l -> level_of levels t = Some et ->
  x < et -> l < t.
Proof.
  intros Hl Ht Hlt. destruct (Z_lt_ge_dec l t) as [|Hge]; [assumption|].
  exfalso.
  revert Hl. unfold check_level.
  destruct (check_level_scan levels x) as [l2|] eqn:Hscan.
  - intros [= ->].
    destruct (scan_some _ _ _ Hscan) as (pre & e & post & Heq & Hx & Hpre).
    pose proof (level_of_in _ _ _ Ht) as Hin. rewrite Heq in Hin.
    apply in_app_or in Hin. destruct Hin as [Hin|[[= Hk _]|Hin]].
    + rewrite Forall_forall in Hpre. specialize (Hpre _ Hin). simpl in Hpre. lia.
    + lia.
    + rewrite Heq in ascending. apply ascending_suffix in ascending.
      pose proof (ascending_head_lt post _ _ _ _ ascending Hin). lia.
  - intros _. pose proof (scan_none _ _ Hscan) as Hall.
    rewrite Forall_forall in Hall.
    specialize (Hall _ (level_of_in _ _ _ Ht)). simpl in Hall. lia.
Qed.

Lemma check_level_total x t et :
  level_of levels t = Some et -> exists l, check_level levels x = Ok l.
Proof.
  unfold check_level. intro Ht.
  destruct (check_level_scan levels x) as [l'|]; [now exists l'|].
  destruct (max_of_spec _ _ (level_of_in_keys _ _ _ Ht)) as (m & Hm & _).
  now exists m.
Qed.

(** From the table's first threshold on, the resolved level is in the table,
    its threshold is met, and the next level (if any) is not. *)
Lemma check_level_bracket lo e0 rest x :
  levels = (lo, e0) :: rest -> e0 <= x ->
  exists l e,
    check_level levels x = Ok l /\ level_of levels l = Some e /\ e <= x /\
    match level_of levels (l + 1) with
    | Some e' => x < e'
    | None => max_of (keys levels) = Ok l
    end.
Proof.
  intros Hlv Hx.
  assert (Hlo : level_of levels lo = Some e0).
  { rewrite Hlv. unfold level_of. simpl. now rewrite Z.eqb_refl. }
  unfold check_level.
  destruct (check_level_scan levels x) as [l|] eqn:Hscan.
  - destruct (scan_some _ _ _ Hscan) as (pre & e & post & Heq & Hlt & Hpre).
    assert (Hin : In (l + 1, e) levels).
    { rewrite Heq. apply in_or_app. right. now left. }
    assert (He : level_of levels (l + 1) = Some e)
      by (apply ascending_in_level_of; assumption).
    assert (Hlow : lo <= l).
    { rewrite Hlv in Hin. destruct Hin as [[= Hk Hv]|Hin]; [lia|].
      rewrite Hlv in ascending.
      pose proof (ascending_head_lt rest _ _ _ _ ascending Hin). lia. }
    destruct (level_of_between levels lo (l + 1) e0 e l ascending Hlo He)
      as [el Hel]; [lia|].
    exists l, el. split; [reflexivity|]. split; [exact Hel|].
    rewrite He. split; [|exact Hlt].
    pose proof (level_of_in _ _ _ Hel) as Hinl. rewrite Heq in Hinl.
    apply in_app_or in Hinl. destruct Hinl as [Hinl|[[= Hk _]|Hinl]].
    + rewrite Forall_forall in Hpre. exact (Hpre _ Hinl).
    + lia.
    + rewrite Heq in ascending. apply ascending_suffix in ascending.
      pose proof (ascending_head_lt post _ _ _ _ ascending Hinl). lia.
  - destruct (max_of_spec _ _ (level_of_in_keys _ _ _ Hlo)) as (m & Hm & _ & Hin).
    destruct (in_keys_level_of _ _ Hin) as [em Hem].
    exists m, em. split; [exact Hm|]. split; [exact Hem|]. split.
    + pose proof (scan_none _ _ Hscan) as Hall. rewrite Forall_forall in Hall.
      exact (Hall _ (level_of_in _ _ _ Hem)).
    + destruct (level_of levels (m + 1)) as [e'|] eqn:Hnext; [|exact Hm].
      pose proof (max_of_upper _ _ _ Hm (level_of_in_keys _ _ _ Hnext)). lia.
Qed.

(** C2: from the table's minimum threshold on, [check_level] returns the
    one level [l] of the table with threshold(l) <= x < threshold(l+1), and
    the maximum tabulated level once x has reached that level's threshold. *)
Theorem check_level_resolves lo e0 rest x :
  levels = (lo, e0) :: rest -> e0 <= x ->
  exists l e m em,
    check_level levels x = Ok l /\
    level_of levels l = Some e /\ e <= x /\
    max_of (keys levels) = Ok m /\ level_of levels m = Some em /\
    (em <= x -> l = m) /\
    (x < em -> exists e', level_of levels (l + 1) = Some e' /\ x < e') /\
    (forall l' a b,
        level_of levels l' = Some a -> level_of levels (l' + 1) = Some b ->
        a <= x < b -> l' = l).
Proof.
  intros Hlv Hx.
  destruct (check_level_bracket lo e0 rest x Hlv Hx)
    as (l & e & Hl & He & Hle & Hnext).
  destruct (max_of_spec _ _ (level_of_in_keys _ _ _ He)) as (m & Hm & Hlm & Hin).
  destruct (in_keys_level_of _ _ Hin) as [em Hm'].
  exists l, e, m, em.
  split; [exact Hl|]. split; [exact He|]. split; [exact Hle|].
  split; [exact Hm|]. split; [exact Hm'|]. split; [|split].
  - intro Hem.
    destruct (check_level_lower x m em Hm' Hem) as (l2 & Hl2 & Hge).
    rewrite Hl in Hl2. injection Hl2 as <-. lia.
  - intro Hlt. destruct (level_of levels (l + 1)) as [e'|] eqn:Hn.
    + now exists e'.
    + rewrite Hnext in Hm. injection Hm as <-. rewrite He in Hm'.
      injection Hm' as <-. lia.
  - intros l' a b Ha Hb Hab.
    destruct (Z.lt_trichotomy l' l) as [Hlt|[Heq|Hgt]]; [|exact Heq|].
    + pose proof (level_of_mono levels (l' + 1) b l e ascending Hb He). lia.
    + pose proof (check_level_upper x l l' a Hl Ha Hgt). lia.
Qed.

End CheckLevel.

(** * The tier resolver *)

Section CheckBirdhouseTier.

Lemma hunter_level_unlock (entry : string * Tier) u :
  hunter_level (snd entry) = Ok u <-> unlock_of entry = Some u.
Proof. apply getitem_ok. Qed.

Lemma last_cons {A : Type} (l : list A) : forall a d,
  last (a :: l) d = last l a.
Proof.
  induction l as [|b l IH]; intros a d; [reflexivity|].
  change (last (b :: l) d = last (b :: l) a). now rewrite !IH.
Qed.

Lemma unlock_order_tail entry rest :
  tiers_in_unlock_order (entry :: rest) = true ->
  tiers_in_unlock_order rest = true.
Proof.
  simpl. destruct (unlock_of entry); [|discriminate].
  destruct rest as [|entry' rest']; [reflexivity|].
  destruct (unlock_of entry'); [|discriminate].
  intro H. apply andb_prop in H. tauto.
Qed.

(** In unlock order, no later tier unlocks before the head does. *)
Lemma unlock_order_head rest : forall entry u,
  tiers_in_unlock_order (entry :: rest) = true ->
  unlock_of entry = Some u ->
  Forall (fun e => exists u', unlock_of e = Some u' /\ u <= u') rest.
Proof.
  induction rest as [|entry' rest' IH]; intros entry u Hord Hu.
  - constructor.
  - pose proof (unlock_order_tail _ _ Hord) as Htl.
    simpl in Hord. rewrite Hu in Hord.
    destruct (unlock_of entry') as [u'|] eqn:Hu'; [|discriminate].
    apply andb_prop in Hord. destruct Hord as [Hle _].
    apply Z.leb_le in Hle. constructor.
    + exists u'. now split.
    + eapply Forall_impl; [|exact (IH entry' u' Htl Hu')].
      intros e (u2 & H2 & Hle2). exists u2. split; [exact H2 | lia].
Qed.

Lemma unlock_order_has_unlock birdhouses :
  tiers_in_unlock_order birdhouses = true -> Forall has_unlock birdhouses.
Proof.
  induction birdhouses as [|entry rest IH]; intro Hord; constructor.
  - simpl in Hord. destruct (unlock_of entry) as [u|] eqn:Hu; [|discriminate].
    now exists u.
  - apply IH. exact (unlock_order_tail _ _ Hord).
Qed.

(** What the scan returns, whatever the order of the tiers: the tiers it
    walked past are unlocked, the one it stopped at is locked. *)
Lemma tier_scan_split items : forall c lvl cur next,
  check_birdhouse_tier_scan c items lvl = Ok (cur, next) ->
  exists pre post,
    items = pre ++ post /\ Forall (unlocked_at lvl) pre /\
    cur = last (keys pre) c /\ next = head (keys post) /\
    (forall entry, head post = Some entry -> locked_at lvl entry).
Proof.
  induction items as [|[tier tier_level] rest IH]; intros c lvl cur next; simpl.
  - intros [= <- <-]. exists [], []. repeat split; [constructor|discriminate].
  - destruct (hunter_level tier_level) as [u|] eqn:Hu; simpl; [|discriminate].
    apply (hunter_level_unlock (tier, tier_level)) in Hu.
    destruct (Z.ltb_spec lvl u) as [Hlt|Hge].
    + intros [= <- <-]. exists [], ((tier, tier_level) :: rest).
      repeat split; [constructor|].
      intros entry [= <-]. exists u. now split.
    + intro H.
      destruct (IH tier lvl cur next H) as (pre & post & -> & Hpre & Hc & Hn & Hp).
      exists ((tier, tier_level) :: pre), post. repeat split.
      * constructor; [|exact Hpre]. exists u. now split.
      * unfold keys in *. simpl map. rewrite last_cons. exact Hc.
      * exact Hn.
      * exact Hp.
Qed.

(** The scan cannot fail when every tier records its unlock level. *)
Lemma tier_scan_total items : forall c lvl,
  Forall has_unlock items ->
  exists cur next, check_birdhouse_tier_scan c items lvl = Ok (cur, next).
Proof.
  induction items as [|[tier tier_level] rest IH]; intros c lvl Hall; simpl.
  - now exists c, None.
  - inversion Hall as [|? ? [u Hu] Hrest]; subst.
    apply hunter_level_unlock in Hu. simpl in Hu. rewrite Hu. simpl.
    destruct (lvl <? u); [now exists c, (Some tier)|].
    now apply IH.
Qed.

(** C3: with the tiers in unlock order, [check_birdhouse_tier] cuts the
    table in two: the tiers unlocked at the level, the last of which is the
    current one (the sentinel "None" when there is none), and the tiers still
    locked, the first of which is the next one (no tier when there is none).
    Below the first unlock level the answer is ("None", first tier); from the
    last tier's unlock level on there is no next tier. *)
Theorem check_birdhouse_tier_resolves birdhouses lvl :
  tiers_in_unlock_order birdhouses = true ->
  exists pre post,
    birdhouses = pre ++ post /\
    Forall (unlocked_at lvl) pre /\ Forall (locked_at lvl) post /\
    check_birdhouse_tier lvl birdhouses
      = Ok (last (keys pre) "None"%string, head (keys post)) /\
    (forall first rest,
        birdhouses = first :: rest -> locked_at lvl first ->
        check_birdhouse_tier lvl birdhouses
          = Ok ("None"%string, Some (fst first))) /\
    (forall front final,
        birdhouses = front ++ [final] -> unlocked_at lvl final ->
        exists cur, check_birdhouse_tier lvl birdhouses = Ok (cur, None)).
Proof.
  intro Hord.
  destruct (tier_scan_total birdhouses "None"%string lvl
              (unlock_order_has_unlock _ Hord)) as (cur & next & Hrun).
  destruct (tier_scan_split _ _ _ _ _ Hrun) as (pre & post & Heq & Hpre & Hc & Hn & Hp).
  assert (Hpost : Forall (locked_at lvl) post).
  { destruct post as [|entry post']; [constructor|].
    destruct (Hp entry eq_refl) as (u & Hu & Hlt).
    constructor; [exists u; now split|].
    rewrite Heq in Hord. clear - Hord Hu Hlt.
    induction pre as [|p pre IH].
    - eapply Forall_impl; [|exact (unlock_order_head _ _ _ Hord Hu)].
      intros e (u' & Hu' & Hle). exists u'. split; [exact Hu' | lia].
    - apply IH. exact (unlock_order_tail _ _ Hord). }
  assert (Hres : check_birdhouse_tier lvl birdhouses
                 = Ok (last (keys pre) "None"%string, head (keys post))).
  { unfold check_birdhouse_tier. rewrite Hrun. now subst cur next. }
  exists pre, post. split; [exact Heq|]. split; [exact Hpre|].
  split; [exact Hpost|]. split; [exact Hres|]. split.
  - intros first rest Hb (u & Hu & Hlt). rewrite Hres.
    destruct pre as [|p pre'].
    + simpl in Heq. rewrite <- Heq, Hb. reflexivity.
    + exfalso. rewrite Hb in Heq. simpl in Heq. injection Heq as <- _.
      inversion Hpre as [|? ? (u' & Hu' & Hle) _]; subst.
      rewrite Hu in Hu'. injection Hu' as <-. lia.
  - intros front final Hb (u & Hu & Hle). rewrite Hres.
    destruct post as [|entry post']; [now eexists|]. exfalso.
    assert (Hin : In final (entry :: post')).
    { destruct (@exists_last _ (entry :: post')) as (q & z & Hq);
        [discriminate|].
      rewrite Hq. rewrite Hb, Hq, app_assoc in Heq.
      apply app_inj_tail in Heq. destruct Heq as [_ ->].
      apply in_or_app. right. now left. }
    rewrite Forall_forall in Hpost. destruct (Hpost _ Hin) as (u' & Hu' & Hlt).
    rewrite Hu in Hu'. injection Hu' as <-. lia.
Qed.

End CheckBirdhouseTier.

(** * The benchmark stepper *)

Section Arithmetic.

(** Rounding up a positive quotient by a positive divisor: at least one
    trip, and the trips cover the gap. *)
Lemma ceil_div_covers a b n :
  0 < a -> 0 < b -> ceil_div a b = Ok n -> 1 <= n /\ a <= n * b.
Proof.
  unfold ceil_div. intros Ha Hb. destruct (Z.eqb_spec b 0); [lia|].
  intros [= <-].
  pose proof (Z.div_mod (- a) b ltac:(lia)) as Hdm.
  pose proof (Z.mod_pos_bound (- a) b Hb) as Hr.
  nia.
Qed.

(** Whatever the sign of the divisor, the experience gained over a positive
    gap is not negative. *)
Lemma ceil_div_gain_nonneg a b n :
  0 < a -> ceil_div a b = Ok n -> 0 <= n * b.
Proof.
  unfold ceil_div. intro Ha. destruct (Z.eqb_spec b 0) as [|Hb]; [discriminate|].
  intros [= <-].
  pose proof (Z.div_mod (- a) b Hb) as Hdm.
  destruct (Z_lt_ge_dec 0 b) as [Hpos|Hneg].
  - pose proof (Z.mod_pos_bound (- a) b Hpos) as Hr.
    assert (Hq : (- a) / b <= 0) by nia. nia.
  - pose proof (Z.mod_neg_bound (- a) b ltac:(lia)) as Hr.
    assert (Hq : 0 <= (- a) / b) by nia. nia.
Qed.

Lemma filter_length_le {A : Type} (p q : A -> bool) (l : list A) :
  (forall y, q y = true -> p y = true) ->
  (List.length (filter q l) <= List.length (filter p l))%nat.
Proof.
  intro Himp. induction l as [|a l IH]; simpl; [lia|].
  destruct (q a) eqn:Hq.
  - rewrite (Himp _ Hq). simpl. lia.
  - destruct (p a); simpl; lia.
Qed.

Lemma filter_length_lt {A : Type} (p q : A -> bool) (l : list A) x :
  (forall y, q y = true -> p y = true) ->
  In x l -> p x = true -> q x = false ->
  (List.length (filter q l) < List.length (filter p l))%nat.
Proof.
  intros Himp Hin Hp Hq. induction l as [|a l IH]; [destruct Hin|].
  simpl. destruct Hin as [->|Hin].
  - rewrite Hp, Hq. simpl.
    pose proof (filter_length_le p q l Himp). lia.
  - specialize (IH Hin). destruct (q a) eqn:Hqa.
    + rewrite (Himp _ Hqa). simpl. lia.
    + destruct (p a); simpl; lia.
Qed.

End Arithmetic.

Section TierLookup.

Lemma tier_of_in (birdhouses : TierTable) name tier :
  tier_of birdhouses name = Some tier -> In (name, tier) birdhouses.
Proof.
  unfold tier_of. induction birdhouses as [|[k v] rest IH]; simpl.
  - discriminate.
  - destruct (String.eqb_spec name k) as [->|Hne].
    + intros [= ->]. now left.
    + intro H. right. now apply IH.
Qed.

Lemma in_keys_tier_of (birdhouses : TierTable) name :
  In name (keys birdhouses) -> exists tier, tier_of birdhouses name = Some tier.
Proof.
  unfold tier_of, keys. induction birdhouses as [|[k v] rest IH]; simpl.
  - intros [].
  - intros [Heq|Hin].
    + subst. rewrite String.eqb_refl. now exists v.
    + destruct (String.eqb_spec name k); [now exists v | now apply IH].
Qed.

(** In a dict, a key has one binding: the entry found at a position is the
    one lookup returns. *)
Lemma nodup_tier_of (birdhouses : TierTable) entry :
  NoDup (keys birdhouses) -> In entry birdhouses ->
  tier_of birdhouses (fst entry) = Some (snd entry).
Proof.
  unfold tier_of, keys. induction birdhouses as [|[k v] rest IH]; simpl.
  - intros _ [].
  - intros Hnd [<-|Hin]; simpl.
    + now rewrite String.eqb_refl.
    + inversion Hnd as [|? ? Hnotin Hnd']; subst.
      destruct (String.eqb_spec (fst entry) k) as [Heq|Hne].
      * exfalso. apply Hnotin. rewrite <- Heq. now apply in_map.
      * now apply IH.
Qed.

End TierLookup.

Section Stepper.

Variable levels : LevelTable.
Variable target_level : Z.
Variable birdhouses : TierTable.

(** What a completed iteration computed, step by step. *)
Lemma loop_body_inv st it st' :
  loop_body levels target_level birdhouses st = Ok (it, st') ->
  exists tier yield,
    check_birdhouse_tier (current_level st) birdhouses
      = Ok (current_tier it, next_tier it) /\
    next_benchmark_of levels target_level birdhouses (next_tier it)
      = Ok (next_benchmark it) /\
    tier_of birdhouses (current_tier it) = Some tier /\
    field tier "Hunter XP" = Some yield /\
    birdhouse_xp it = yield * 4 /\
    ceil_div (next_benchmark it - current_xp st) (birdhouse_xp it)
      = Ok (trips it) /\
    xp_gain it = trips it * birdhouse_xp it /\
    logs_needed it = trips it * 4 /\
    current_xp st' = current_xp st + xp_gain it /\
    check_level levels (current_xp st') = Ok (current_level st') /\
    logs_to_target st'
      = (logs_to_target st
         ++ [format_logs (current_tier it) (logs_needed it)])%list.
Proof.
  unfold loop_body.
  destruct (check_birdhouse_tier _ _) as [[cur next]|]; simpl; [|discriminate].
  destruct (next_benchmark_of _ _ _ _) as [benchmark|] eqn:Hbench; simpl;
    [|discriminate].
  destruct (getitem String.eqb birdhouses cur) as [tier|] eqn:Htier; simpl;
    [|discriminate].
  destruct (hunter_xp tier) as [yield|] eqn:Hyield; simpl; [|discriminate].
  destruct (ceil_div _ _) as [n|] eqn:Hn; simpl; [|discriminate].
  destruct (check_level _ _) as [level'|] eqn:Hlevel; simpl; [|discriminate].
  intros [= <- <-]. simpl.
  exists tier, yield. apply getitem_ok in Htier, Hyield.
  repeat split; assumption.
Qed.

Lemma next_benchmark_designed next benchmark :
  next_benchmark_of levels target_level birdhouses next = Ok benchmark ->
  benchmark_as_designed levels target_level birdhouses next benchmark.
Proof.
  unfold next_benchmark_of, benchmark_as_designed.
  destruct next as [nt|]; [|apply getitem_ok].
  destruct (getitem String.eqb birdhouses nt) as [tier|] eqn:Htier; simpl;
    [|discriminate].
  destruct (hunter_level tier) as [u|] eqn:Hu; simpl; [|discriminate].
  apply getitem_ok in Htier, Hu. intro H. exists tier, u.
  split; [exact Htier|]. split; [exact Hu|].
  destruct (Z.ltb_spec target_level u); apply getitem_ok in H;
    split; intro; (exact H || lia).
Qed.

Lemma loop_iterations_step fuel st it st' :
  loop_cond target_level st = true ->
  loop_body levels target_level birdhouses st = Ok (it, st') ->
  loop_iterations levels (S fuel) target_level birdhouses st
  = (st, it, st') :: loop_iterations levels fuel target_level birdhouses st'.
Proof. intros Hc Hb. simpl. now rewrite Hc, Hb. Qed.


(** Every completed iteration started from a state that satisfies an
    invariant of the loop, with the loop condition true. *)
Lemma loop_iterations_inv (P : loop_state -> Prop) :
  (forall st it st',
      P st -> loop_cond target_level st = true ->
      loop_body levels target_level birdhouses st = Ok (it, st') -> P st') ->
  forall fuel st, P st ->
    Forall (fun r =>
              P (fst (fst r)) /\
              loop_cond target_level (fst (fst r)) = true /\
              loop_body levels target_level birdhouses (fst (fst r))
              = Ok (snd (fst r), snd r))
           (loop_iterations levels fuel target_level birdhouses st).
Proof.
  intros Hstep fuel. induction fuel as [|fuel IH]; intros st Hst; simpl.
  - constructor.
  - destruct (loop_cond target_level st) eqn:Hc; [|constructor].
    destruct (loop_body levels target_level birdhouses st) as [[it st']|] eqn:Hb;
      [|constructor].
    constructor; [now repeat split|]. apply IH. exact (Hstep _ _ _ Hst Hc Hb).
Qed.


End Stepper.

Section Progress.

Variable levels : LevelTable.
Variable target_level : Z.
Variable birdhouses : TierTable.

Hypothesis ascending : levels_ascending levels = true.
Hypothesis unique_keys : NoDup (keys birdhouses).

Lemma initial_state_resolved x st :
  initial_state levels x = Ok st -> current_xp st = x /\ level_resolved levels st.
Proof.
  unfold initial_state, level_resolved.
  destruct (check_level levels x) as [l|] eqn:Hl; simpl; [|discriminate].
  intros [= <-]. simpl. now split.
Qed.

Lemma loop_body_resolved st it st' :
  loop_body levels target_level birdhouses st = Ok (it, st') ->
  level_resolved levels st'.
Proof.
  intro Hb. destruct (loop_body_inv _ _ _ _ _ _ Hb) as (? & ? & H).
  unfold level_resolved. tauto.
Qed.

(** The next tier the resolver names is an entry of the table that is still
    locked at the level. *)
Lemma next_tier_locked lvl cur nt :
  check_birdhouse_tier lvl birdhouses = Ok (cur, Some nt) ->
  exists entry u,
    In entry birdhouses /\ fst entry = nt /\
    unlock_of entry = Some u /\ lvl < u.
Proof.
  intro H.
  destruct (tier_scan_split _ _ _ _ _ H) as (pre & post & Heq & _ & _ & Hn & Hp).
  destruct post as [|entry post']; [discriminate|].
  destruct (Hp entry eq_refl) as (u & Hu & Hlt).
  exists entry, u. repeat split; try assumption.
  - rewrite Heq. apply in_or_app. right. now left.
  - simpl in Hn. now injection Hn.
Qed.

(** What the benchmark of an iteration is, given the tier it is headed
    for. *)
Lemma benchmark_cases st it st' :
  loop_body levels target_level birdhouses st = Ok (it, st') ->
  level_of levels target_level = Some (next_benchmark it) \/
  exists entry u,
    In entry birdhouses /\ unlock_of entry = Some u /\
    current_level st < u <= target_level /\
    level_of levels u = Some (next_benchmark it).
Proof.
  intro Hb.
  destruct (loop_body_inv _ _ _ _ _ _ Hb) as (tier & yield & Htiers & Hbench & _).
  apply next_benchmark_designed in Hbench. unfold benchmark_as_designed in Hbench.
  destruct (next_tier it) as [nt|]; [|now left].
  destruct Hbench as (nx & u & Hnx & Hu & Habove & Hbelow).
  destruct (next_tier_locked _ _ _ Htiers) as (entry & u' & Hin & Hname & Hu' & Hlt).
  pose proof (nodup_tier_of _ _ unique_keys Hin) as Hget.
  rewrite Hname, Hnx in Hget. injection Hget as ->.
  unfold unlock_of in Hu'. rewrite Hu in Hu'. injection Hu' as <-.
  destruct (Z_lt_ge_dec target_level u) as [Hgt|Hle].
  - left. now apply Habove.
  - right. exists entry, u. repeat split; try assumption; try lia.
    apply Hbelow. lia.
Qed.

(** While the target level is not reached, the benchmark lies ahead. *)
Lemma benchmark_ahead st it st' :
  level_resolved levels st -> loop_cond target_level st = true ->
  loop_body levels target_level birdhouses st = Ok (it, st') ->
  current_xp st < next_benchmark it.
Proof.
  unfold level_resolved, loop_cond. intros Hres Hcond Hb.
  apply Z.ltb_lt in Hcond.
  destruct (benchmark_cases _ _ _ Hb) as [Ht|(entry & u & _ & _ & Hu & Hlu)].
  - exact (check_level_upper levels ascending _ _ _ _ Hres Ht Hcond).
  - apply (check_level_upper levels ascending _ _ _ _ Hres Hlu). lia.
Qed.

(** The experience never goes down over an iteration. *)
Lemma loop_body_keeps_xp st it st' :
  level_resolved levels st -> loop_cond target_level st = true ->
  loop_body levels target_level birdhouses st = Ok (it, st') ->
  current_xp st <= current_xp st'.
Proof.
  intros Hres Hcond Hb. pose proof (benchmark_ahead _ _ _ Hres Hcond Hb) as Hgap.
  destruct (loop_body_inv _ _ _ _ _ _ Hb)
    as (tier & yield & _ & _ & _ & _ & _ & Hn & Hgain & _ & Hxp & _).
  apply ceil_div_gain_nonneg in Hn; lia.
Qed.

(** With positive yields an iteration makes at least one trip and reaches
    its benchmark. *)
Lemma loop_body_advances st it st' :
  Forall positive_yield birdhouses ->
  level_resolved levels st -> loop_cond target_level st = true ->
  loop_body levels target_level birdhouses st = Ok (it, st') ->
  1 <= trips it /\ next_benchmark it <= current_xp st' /\
  current_xp st < current_xp st'.
Proof.
  intros Hpos Hres Hcond Hb.
  pose proof (benchmark_ahead _ _ _ Hres Hcond Hb) as Hgap.
  destruct (loop_body_inv _ _ _ _ _ _ Hb)
    as (tier & yield & _ & _ & Htier & Hyield & Hbxp & Hn & Hgain & _ & Hxp & _).
  apply tier_of_in in Htier. rewrite Forall_forall in Hpos.
  destruct (Hpos _ Htier) as (y & Hy & Hypos).
  unfold yield_of in Hy. simpl in Hy. rewrite Hyield in Hy. injection Hy as ->.
  apply ceil_div_covers in Hn; lia.
Qed.

Lemma loop_states_step fuel st it st' :
  loop_cond target_level st = true ->
  loop_body levels target_level birdhouses st = Ok (it, st') ->
  loop_states levels (S fuel) target_level birdhouses st
  = st :: loop_states levels fuel target_level birdhouses st'.
Proof.
  intros Hc Hb. unfold loop_states.
  now rewrite (loop_iterations_step _ _ _ _ _ _ _ Hc Hb).
Qed.

Lemma loop_states_stop fuel st :
  (fuel = O \/ loop_cond target_level st = false \/
   exists e, loop_body levels target_level birdhouses st = Raise e) ->
  loop_states levels fuel target_level birdhouses st = [st].
Proof.
  unfold loop_states. intros [->|[Hc|[e He]]]; [reflexivity| |];
    destruct fuel; simpl; try reflexivity.
  - now rewrite Hc.
  - rewrite He. now destruct (loop_cond target_level st).
Qed.

(** A property that holds at the start and survives every iteration holds
    at every head of the loop. *)
Lemma loop_states_all (P : loop_state -> Prop) :
  (forall st it st',
      P st -> loop_cond target_level st = true ->
      loop_body levels target_level birdhouses st = Ok (it, st') -> P st') ->
  forall fuel st, P st ->
    Forall P (loop_states levels fuel target_level birdhouses st).
Proof.
  intros Hstep fuel. induction fuel as [|fuel IH]; intros st Hst.
  - rewrite loop_states_stop; [|now left]. now constructor.
  - destruct (loop_cond target_level st) eqn:Hc.
    + destruct (loop_body levels target_level birdhouses st) as [[it st']|e] eqn:Hb.
      * rewrite (loop_states_step _ _ _ _ Hc Hb). constructor; [exact Hst|].
        apply IH. exact (Hstep _ _ _ Hst Hc Hb).
      * rewrite loop_states_stop; [now constructor|]. right. right. now exists e.
    + rewrite loop_states_stop; [now constructor|]. right. now left.
Qed.

(** The state the loop returns is the last head of the loop, and the loop
    condition fails there. *)
Lemma while_loop_last : forall fuel st st',
  while_loop levels fuel target_level birdhouses st = Some (Ok st') ->
  last (loop_states levels fuel target_level birdhouses st) st = st' /\
  loop_cond target_level st' = false.
Proof.
  induction fuel as [|fuel IH]; intros st st'; [discriminate|].
  destruct (loop_cond target_level st) eqn:Hc.
  - destruct (loop_body levels target_level birdhouses st) as [[it st1]|e] eqn:Hb.
    + rewrite (loop_states_step _ _ _ _ Hc Hb). simpl while_loop.
      rewrite Hc, Hb. intro Hw. destruct (IH _ _ Hw) as [Hlast Hstop].
      split; [|exact Hstop]. unfold loop_states in *.
      rewrite last_cons.
      destruct (loop_iterations levels fuel target_level birdhouses st1);
        [exact Hlast|].
      simpl map in *. rewrite last_cons in *. exact Hlast.
    + simpl. rewrite Hc, Hb. discriminate.
  - simpl while_loop. rewrite Hc. intros [= <-].
    rewrite loop_states_stop; [now split|]. right. now left.
Qed.

Lemma yields_in_range_positive (table : TierTable) :
  Forall yield_in_range table -> Forall positive_yield table.
Proof.
  apply Forall_impl. intros entry (y & Hy & Hpos & _). exists y. now split.
Qed.

Lemma threshold_in_range l e :
  thresholds_in_range levels -> level_of levels l = Some e ->
  0 <= e < float_limit.
Proof.
  intros Hall Hl. unfold thresholds_in_range in Hall.
  rewrite Forall_forall in Hall. exact (Hall _ (level_of_in _ _ _ Hl)).
Qed.

(** With the tables in range and experience that is not negative, every
    division of the loop has operands in the range of exact division: the
    gap to the benchmark is positive and no more than a threshold, the
    divisor is a trip yield. *)
Lemma loop_divisions_exact fuel st :
  thresholds_in_range levels -> Forall yield_in_range birdhouses ->
  level_resolved levels st -> 0 <= current_xp st ->
  divisions_exact levels fuel target_level birdhouses st.
Proof.
  intros Hlevels Hyields Hres Hxp. unfold divisions_exact.
  eapply Forall_impl;
    [|apply (loop_iterations_inv levels target_level birdhouses
               (fun s => level_resolved levels s /\ 0 <= current_xp s))].
  - intros [[s it] s']. cbn [fst snd]. intros ([Hs Hs0] & Hc & Hb).
    pose proof (benchmark_ahead _ _ _ Hs Hc Hb) as Hgap.
    assert (Hbench : 0 <= next_benchmark it < float_limit).
    { destruct (benchmark_cases _ _ _ Hb) as [Ht|(_ & u & _ & _ & _ & Hu)];
        eapply threshold_in_range; eassumption. }
    destruct (loop_body_inv _ _ _ _ _ _ Hb)
      as (tier & yield & _ & _ & Htier & Hyield & Hbxp & _).
    apply tier_of_in in Htier. rewrite Forall_forall in Hyields.
    destruct (Hyields _ Htier) as (y & Hy & Hypos & Hysmall).
    unfold yield_of in Hy. simpl in Hy. rewrite Hyield in Hy.
    injection Hy as ->. unfold float_exact. lia.
  - intros s it s' [Hs Hs0] Hc Hb. split.
    + exact (loop_body_resolved _ _ _ Hb).
    + pose proof (loop_body_keeps_xp _ _ _ Hs Hc Hb). lia.
  - now split.
Qed.


End Progress.

Section FromFirstTier.

Variable levels : LevelTable.
Variable target_level : Z.
Variable birdhouses : TierTable.

Hypothesis ascending : levels_ascending levels = true.
Hypothesis unique_keys : NoDup (keys birdhouses).

(** The first tier of the table, its unlock level and that level's
    threshold. *)
Variable first : string * Tier.
Variable rest : TierTable.
Variable u0 e0 : Z.
Hypothesis first_tier : birdhouses = first :: rest.
Hypothesis first_unlock : unlock_of first = Some u0.
Hypothesis first_threshold : level_of levels u0 = Some e0.

Lemma last_in {A : Type} (l : list A) d : l <> [] -> In (last l d) l.
Proof.
  intro Hne. destruct (exists_last Hne) as (q & z & ->).
  rewrite last_last. apply in_or_app. right. now left.
Qed.

(** From the first tier's threshold on, the current tier is a tier of the
    table, unlocked at the level. *)
Lemma current_tier_unlocked x l cur next :
  e0 <= x -> check_level levels x = Ok l ->
  check_birdhouse_tier l birdhouses = Ok (cur, next) ->
  u0 <= l /\
  exists entry,
    In entry birdhouses /\ fst entry = cur /\ unlocked_at l entry.
Proof.
  intros Hx Hl Htiers.
  destruct (check_level_lower levels ascending x u0 e0 first_threshold Hx)
    as (l' & Hl' & Hge).
  rewrite Hl in Hl'. injection Hl' as <-. split; [exact Hge|].
  destruct (tier_scan_split _ _ _ _ _ Htiers)
    as (pre & post & Heq & Hpre & Hc & _ & Hp).
  destruct pre as [|p pre'].
  - exfalso. simpl in Heq. rewrite first_tier in Heq. subst post.
    destruct (Hp first eq_refl) as (u & Hu & Hlt).
    rewrite first_unlock in Hu. injection Hu as <-. lia.
  - assert (Hin : In cur (keys (p :: pre')))
      by (rewrite Hc; apply last_in; discriminate).
    unfold keys in Hin. apply in_map_iff in Hin.
    destruct Hin as (entry & Hname & Hin). exists entry.
    split; [rewrite Heq; apply in_or_app; now left|].
    split; [exact Hname|]. rewrite Forall_forall in Hpre. now apply Hpre.
Qed.

Lemma current_tier_found x l cur next :
  e0 <= x -> check_level levels x = Ok l ->
  check_birdhouse_tier l birdhouses = Ok (cur, next) ->
  In cur (keys birdhouses) /\
  exists tier, getitem String.eqb birdhouses cur = Ok tier.
Proof.
  intros Hx Hl Htiers.
  destruct (current_tier_unlocked _ _ _ _ Hx Hl Htiers)
    as (_ & entry & Hin & <- & _).
  split; [unfold keys; now apply in_map|].
  exists (snd entry). apply getitem_ok. now apply nodup_tier_of.
Qed.

(** C10: from the first tier's unlock threshold on, at every head of the
    loop the current tier [check_birdhouse_tier] returns is the name of a tier
    of the table that is unlocked at the level, not the starting sentinel, so
    [birdhouses[current_tier]] finds it; the same holds for the lookup of
    [calc_trips_to_next_benchmark], which resolves the tier the same way. *)
Theorem current_tier_is_a_key fuel x st0 :
  e0 <= x ->
  initial_state levels x = Ok st0 ->
  Forall (fun st =>
            forall cur next,
              check_birdhouse_tier (current_level st) birdhouses
                = Ok (cur, next) ->
              In cur (keys birdhouses) /\
              (exists entry,
                  In entry birdhouses /\ fst entry = cur /\
                  unlocked_at (current_level st) entry) /\
              exists tier, getitem String.eqb birdhouses cur = Ok tier)
         (loop_states levels fuel target_level birdhouses st0) /\
  (forall l tiers,
      check_level levels x = Ok l ->
      check_birdhouse_tier l birdhouses = Ok tiers ->
      In (fst tiers) (keys birdhouses) /\
      exists tier, getitem String.eqb birdhouses (fst tiers) = Ok tier).
Proof.
  intros Hx Hinit. destruct (initial_state_resolved _ _ _ Hinit) as [Hx0 Hres].
  split.
  - eapply Forall_impl;
      [|apply (loop_states_all levels target_level birdhouses
                 (fun st => level_resolved levels st /\ e0 <= current_xp st))].
    + intros st [Hr Hge] cur next Htiers.
      destruct (current_tier_found _ _ _ _ Hge Hr Htiers) as [Hkey Hget].
      destruct (current_tier_unlocked _ _ _ _ Hge Hr Htiers) as [_ Hentry].
      now repeat split.
    + intros st it st' [Hr Hge] Hc Hb. split.
      * exact (loop_body_resolved _ _ _ _ _ _ Hb).
      * pose proof (loop_body_keeps_xp levels target_level birdhouses
                      ascending unique_keys _ _ _ Hr Hc Hb). lia.
    + split; [exact Hres | lia].
  - intros l [cur next] Hl Htiers. simpl.
    exact (current_tier_found _ _ _ _ Hx Hl Htiers).
Qed.

Hypothesis unlock_levels : Forall has_unlock birdhouses.
Hypothesis positive_yields : Forall positive_yield birdhouses.

Variable target_xp : Z.
Hypothesis target_threshold : level_of levels target_level = Some target_xp.

(** On valid input no step of the loop body raises. *)
Lemma loop_body_total st :
  level_resolved levels st -> e0 <= current_xp st ->
  loop_cond target_level st = true ->
  exists it st', loop_body levels target_level birdhouses st = Ok (it, st').
Proof.
  intros Hres Hge Hcond. unfold loop_body.
  destruct (tier_scan_total birdhouses "None"%string (current_level st)
              unlock_levels) as (cur & next & Htiers).
  change (check_birdhouse_tier (current_level st) birdhouses = Ok (cur, next))
    in Htiers.
  rewrite Htiers. simpl.
  destruct (current_tier_unlocked _ _ _ _ Hge Hres Htiers)
    as (Hu0 & entry & Hin & Hname & _).
  assert (Hbench : exists b,
             next_benchmark_of levels target_level birdhouses next = Ok b).
  { unfold next_benchmark_of. destruct next as [nt|].
    - destruct (next_tier_locked _ _ _ _ Htiers)
        as (nx & u & Hnx & Hnt & Hu & Hlt).
      pose proof (nodup_tier_of _ _ unique_keys Hnx) as Hget.
      rewrite Hnt in Hget. apply getitem_ok in Hget.
      fold tier_of in Hget. unfold tier_of in Hget. rewrite Hget. simpl.
      apply hunter_level_unlock in Hu. rewrite Hu. simpl.
      destruct (Z.ltb_spec target_level u) as [Habove|Hbelow].
      + exists target_xp. now apply getitem_ok.
      + destruct (level_of_between levels u0 target_level e0 target_xp u
                    ascending first_threshold target_threshold) as [e He];
          [lia|].
        exists e. now apply getitem_ok.
    - exists target_xp. now apply getitem_ok. }
  destruct Hbench as [b Hb]. rewrite Hb. simpl.
  pose proof (nodup_tier_of _ _ unique_keys Hin) as Hget. rewrite Hname in Hget.
  apply getitem_ok in Hget. rewrite Hget. simpl.
  rewrite Forall_forall in positive_yields.
  destruct (positive_yields _ Hin) as (y & Hy & Hpos).
  apply getitem_ok in Hy. fold (hunter_xp (snd entry)) in Hy. rewrite Hy. simpl.
  unfold ceil_div. destruct (Z.eqb_spec (y * 4) 0) as [|_]; [lia|]. simpl.
  match goal with
  | |- context [check_level levels ?xp] =>
      destruct (check_level_total levels xp _ _ target_threshold) as [l' Hl']
  end.
  rewrite Hl'. simpl. eauto.
Qed.

(** On valid input every iteration uses up the bound on those left. *)
Lemma loop_body_progress st it st' :
  level_resolved levels st -> loop_cond target_level st = true ->
  loop_body levels target_level birdhouses st = Ok (it, st') ->
  (iterations_left target_level birdhouses st'
   < iterations_left target_level birdhouses st)%nat.
Proof.
  intros Hres Hcond Hb. unfold iterations_left. rewrite Hcond.
  destruct (loop_cond target_level st') eqn:Hcond'; [|lia].
  apply -> Nat.succ_lt_mono. unfold loop_cond in Hcond'. apply Z.ltb_lt in Hcond'.
  destruct (loop_body_advances levels target_level birdhouses ascending
              unique_keys _ _ _ positive_yields Hres Hcond Hb)
    as (_ & Hreach & _).
  pose proof (loop_body_resolved _ _ _ _ _ _ Hb) as Hres'.
  destruct (benchmark_cases levels target_level birdhouses unique_keys _ _ _ Hb)
    as [Ht|(entry & u & Hin & Hu & Hrange & Hlu)].
  - destruct (check_level_lower levels ascending _ _ _ Ht Hreach)
      as (l' & Hl' & Hle).
    unfold level_resolved in Hres'. rewrite Hres' in Hl'. injection Hl' as <-. lia.
  - destruct (check_level_lower levels ascending _ _ _ Hlu Hreach)
      as (l' & Hl' & Hle).
    unfold level_resolved in Hres'. rewrite Hres' in Hl'. injection Hl' as <-.
    unfold tiers_between. apply filter_length_lt with (x := entry).
    + intro y. unfold unlocks_between. destruct (unlock_of y); [|trivial].
      intro H. apply andb_prop in H. destruct H as [H1 H2].
      apply Z.ltb_lt in H1. rewrite H2, andb_true_r. apply Z.ltb_lt. lia.
    + exact Hin.
    + unfold unlocks_between. rewrite Hu. apply andb_true_intro.
      split; apply Z.ltb_lt; lia.
    + unfold unlocks_between. rewrite Hu. apply andb_false_intro1.
      apply Z.ltb_ge. lia.
Qed.

(** On valid input the loop stops, within the bound, at a state where the
    target level is reached; [k] is the number of iterations it took. *)
Lemma while_loop_runs : forall n st,
  level_resolved levels st -> e0 <= current_xp st ->
  (iterations_left target_level birdhouses st <= n)%nat ->
  exists k st',
    (k <= iterations_left target_level birdhouses st)%nat /\
    (forall fuel, (k < fuel)%nat ->
        while_loop levels fuel target_level birdhouses st = Some (Ok st') /\
        List.length (loop_iterations levels fuel target_level birdhouses st) = k) /\
    (forall fuel, (fuel <= k)%nat ->
        while_loop levels fuel target_level birdhouses st = None) /\
    List.length (logs_to_target st')
    = (List.length (logs_to_target st) + k)%nat.
Proof.
  induction n as [|n IH]; intros st Hres Hge Hleft;
    destruct (loop_cond target_level st) eqn:Hcond.
  - unfold iterations_left in Hleft. rewrite Hcond in Hleft. lia.
  - exists O, st. split; [lia|]. split; [|split].
    + intros [|fuel] Hf; [lia|]. simpl. now rewrite Hcond.
    + intros [|fuel] Hf; [reflexivity|lia].
    + lia.
  - destruct (loop_body_total st Hres Hge Hcond) as (it & st1 & Hb).
    pose proof (loop_body_progress _ _ _ Hres Hcond Hb) as Hless.
    pose proof (loop_body_resolved _ _ _ _ _ _ Hb) as Hres1.
    pose proof (loop_body_keeps_xp levels target_level birdhouses
                  ascending unique_keys _ _ _ Hres Hcond Hb) as Hxp.
    destruct (IH st1 Hres1 ltac:(lia) ltac:(lia))
      as (k & st' & Hk & Hrun & Hshort & Hlogs).
    exists (S k), st'. split; [lia|]. split; [|split].
    + intros [|fuel] Hf; [lia|]. simpl. rewrite Hcond, Hb.
      destruct (Hrun fuel ltac:(lia)) as [Hw Hlen]. split; [exact Hw|].
      simpl. now rewrite Hlen.
    + intros [|fuel] Hf; [reflexivity|]. simpl. rewrite Hcond, Hb.
      apply Hshort. lia.
    + rewrite Hlogs.
      destruct (loop_body_inv _ _ _ _ _ _ Hb)
        as (? & ? & _ & _ & _ & _ & _ & _ & _ & _ & _ & _ & Hpath).
      rewrite Hpath, length_app. simpl. lia.
  - exists O, st. split; [lia|]. split; [|split].
    + intros [|fuel] Hf; [lia|]. simpl. now rewrite Hcond.
    + intros [|fuel] Hf; [reflexivity|lia].
    + lia.
Qed.


End FromFirstTier.

(** * The stepper at and past the target *)

Section AtTheTarget.

Variable levels : LevelTable.
Hypothesis ascending : levels_ascending levels = true.

(** C9: when the starting experience has reached the target level's
    threshold, the resolved level is the target level at least, the loop runs
    no iteration and [calc_trips_to_target] returns the empty list. *)
Theorem reached_target_gives_empty_plan x t et birdhouses fuel :
  level_of levels t = Some et -> et <= x ->
  (exists l, check_level levels x = Ok l /\ t <= l /\
             loop_iterations levels (S fuel) t birdhouses (mk_state x l []) = []) /\
  calc_trips_to_target levels (S fuel) x t birdhouses = Some (Ok []).
Proof.
  intros Ht Hx.
  destruct (check_level_lower levels ascending x t et Ht Hx) as (l & Hl & Hge).
  assert (Hcond : loop_cond t (mk_state x l []) = false)
    by (unfold loop_cond; simpl; apply Z.ltb_ge; lia).
  split.
  - exists l. repeat split; [exact Hl | exact Hge |]. simpl loop_iterations.
    now rewrite Hcond.
  - unfold calc_trips_to_target, initial_state. rewrite Hl. simpl bind.
    cbv iota. simpl while_loop. now rewrite Hcond.
Qed.

(** C8: level 5 at 388 and level 10 at 1154, the single tier
    "Regular birdhouse" unlocked at level 5 with yield 280, experience 400 and
    target level 10: one iteration, one trip towards the benchmark 1154, final
    experience 1520, and the plan is the single step "Regular logs": 4. *)
Theorem regular_birdhouse_example tier fuel :
  level_of levels 5 = Some 388 -> level_of levels 10 = Some 1154 ->
  field tier "Hunter Level" = Some 5 -> field tier "Hunter XP" = Some 280 ->
  let birdhouses := [("Regular birdhouse"%string, tier)] in
  exists l0 l1,
    check_level levels 400 = Ok l0 /\
    loop_iterations levels (S (S fuel)) 10 birdhouses (mk_state 400 l0 [])
    = [(mk_state 400 l0 [],
        mk_iteration "Regular birdhouse" None 1154 1120 1 1120 4,
        mk_state 1520 l1 [[("Regular logs"%string, 4)]])] /\
    10 <= l1 /\
    calc_trips_to_target levels (S (S fuel)) 400 10 birdhouses
    = Some (Ok [[("Regular logs"%string, 4)]]) /\
    calc_trips_to_target levels 1 400 10 birdhouses = None.
Proof.
  intros H5 H10 Hunlock Hyield birdhouses.
  destruct (check_level_lower levels ascending 400 5 388 H5 ltac:(lia))
    as (l0 & Hl0 & Hge5).
  pose proof (check_level_below levels ascending 400 l0 10 1154 Hl0 H10
                ltac:(lia)) as Hlt10.
  destruct (check_level_lower levels ascending 1520 10 1154 H10 ltac:(lia))
    as (l1 & Hl1 & Hge10).
  assert (Hcond : (l0 <? 10) = true) by (apply Z.ltb_lt; lia).
  assert (Hcond' : (l1 <? 10) = false) by (apply Z.ltb_ge; lia).
  assert (Hbody : loop_body levels 10 birdhouses (mk_state 400 l0 [])
                  = Ok (mk_iteration "Regular birdhouse" None 1154 1120 1 1120 4,
                        mk_state 1520 l1 [[("Regular logs"%string, 4)]])).
  { unfold field in Hunlock, Hyield. unfold level_of in H10.
    unfold loop_body, check_birdhouse_tier, birdhouses.
    cbn [check_birdhouse_tier_scan current_level current_xp logs_to_target].
    unfold hunter_level, getitem at 1. rewrite Hunlock. cbn [bind].
    destruct (Z.ltb_spec l0 5); [lia|]. cbn [bind next_benchmark_of].
    unfold getitem at 1. rewrite H10. cbn [bind].
    unfold getitem at 1. cbn [get]. rewrite String.eqb_refl. cbn [bind].
    unfold hunter_xp, getitem. rewrite Hyield. cbn [bind].
    change (ceil_div (1154 - 400) (280 * 4)) with (@Ok Z 1). cbn [bind].
    change (400 + 1 * (280 * 4)) with 1520. rewrite Hl1. reflexivity. }
  exists l0, l1. split; [exact Hl0|]. split; [|split; [exact Hge10|split]].
  - simpl loop_iterations. unfold loop_cond at 1. simpl current_level.
    rewrite Hcond, Hbody. unfold loop_cond. simpl current_level.
    now rewrite Hcond'.
  - unfold calc_trips_to_target, initial_state. rewrite Hl0. simpl bind.
    cbv iota. simpl while_loop. unfold loop_cond at 1. simpl current_level.
    rewrite Hcond, Hbody. unfold loop_cond. simpl current_level.
    now rewrite Hcond'.
  - unfold calc_trips_to_target, initial_state. rewrite Hl0. simpl bind.
    cbv iota. simpl while_loop. unfold loop_cond. simpl current_level.
    now rewrite Hcond, Hbody.
Qed.

End AtTheTarget.

(** * The Leagues multiplier *)

Section Multiplier.

Lemma scale_tier_keys m (t : Tier) : keys (scale_tier m t) = keys t.
Proof.
  unfold keys, scale_tier. rewrite map_map. now apply map_ext.
Qed.

Lemma scale_tier_field m (t : Tier) f :
  field (scale_tier m t) f
  = if String.eqb f "Hunter XP" then option_map (fun v => v * m) (field t f)
    else field t f.
Proof.
  unfold field. induction t as [|[k v] t IH]; simpl.
  - now destruct (String.eqb f "Hunter XP").
  - destruct (String.eqb_spec f k) as [->|Hne]; [|exact IH].
    now destruct (String.eqb k "Hunter XP").
Qed.

Lemma scale_birdhouses_keys m (base : TierTable) :
  keys (scale_birdhouses m base) = keys base.
Proof.
  unfold keys, scale_birdhouses. rewrite map_map. now apply map_ext.
Qed.

Lemma scale_birdhouses_tier_of m (base : TierTable) name :
  tier_of (scale_birdhouses m base) name
  = option_map (scale_tier m) (tier_of base name).
Proof.
  unfold tier_of. induction base as [|[k v] base IH]; simpl; [reflexivity|].
  destruct (String.eqb name k); [reflexivity | exact IH].
Qed.

(** C6: the effective tier table keeps the tiers and their order; each
    tier keeps its fields, the ["Hunter XP"] field is the base yield times the
    multiplier and every other field, the unlock level among them, is the
    base value; without Leagues the effective table is the base table. *)
Theorem effective_table_scales_yield_only multiplier base :
  keys (effective_birdhouses (Some multiplier) base) = keys base /\
  (forall name,
      tier_of (effective_birdhouses (Some multiplier) base) name
      = option_map (scale_tier multiplier) (tier_of base name)) /\
  (forall tier : Tier,
      keys (scale_tier multiplier tier) = keys tier /\
      field (scale_tier multiplier tier) "Hunter XP"
      = option_map (fun y => y * multiplier) (field tier "Hunter XP") /\
      field (scale_tier multiplier tier) "Hunter Level"
      = field tier "Hunter Level" /\
      forall f,
        field (scale_tier multiplier tier) f
        = if String.eqb f "Hunter XP"
          then option_map (fun v => v * multiplier) (field tier f)
          else field tier f) /\
  effective_birdhouses None base = base.
Proof.
  split; [apply scale_birdhouses_keys|].
  split; [apply scale_birdhouses_tier_of|].
  split; [|reflexivity].
  intro tier. split; [apply scale_tier_keys|].
  split; [exact (scale_tier_field multiplier tier "Hunter XP")|].
  split; [exact (scale_tier_field multiplier tier "Hunter Level")|].
  intro f. apply scale_tier_field.
Qed.

End Multiplier.

(** * The input step *)

Section Inputs.

Local Open Scope string_scope.
Local Open Scope Z_scope.

Variable levels : LevelTable.
Variable leagues_multipliers : MultiplierTable.
Variable base_birdhouses : TierTable.
Variable py_int : string -> result Z.

(** Two lines that parse, the first at or above the level-5 threshold: the
    answer of [get_inputs] depends on the comparison with the target's
    threshold alone. *)
Lemma get_inputs_parsed w text text' more experience target_level
      minimum target_xp :
  pending w = text :: text' :: more ->
  py_int text = Ok experience -> py_int text' = Ok target_level ->
  level_of levels 5 = Some minimum -> minimum <= experience ->
  level_of levels target_level = Some target_xp ->
  get_inputs levels py_int w
  = if experience >? target_xp then
      (Ok None,
       mk_world more
         (shown w
          ++ [Prompt "What is your current Hunter xp? (Example: 2224614) ";
              Prompt "What is your target Hunter level? (Example: 99) ";
              Print "You've already passed your target."])%list)
    else
      (Ok (Some (experience, target_level)),
       mk_world more
         (shown w
          ++ [Prompt "What is your current Hunter xp? (Example: 2224614) ";
              Prompt "What is your target Hunter level? (Example: 99) "])%list).
Proof.
  destruct w as [lines out]. simpl. intros -> Hxp Htarget Hmin Hge Hthreshold.
  unfold level_of in Hmin, Hthreshold.
  unfold get_inputs, io_bind, input, lift, print, io_ret, show, getitem. simpl.
  rewrite Hxp, Hmin. destruct (Z.ltb_spec experience minimum); [lia|].
  simpl. rewrite Htarget, Hthreshold.
  destruct (experience >? target_xp); simpl; rewrite <- !app_assoc; reflexivity.
Qed.

(** Once [get_inputs] has given up, [main] plans nothing, whatever is typed
    afterwards. *)
Lemma main_without_inputs fuel w w1 :
  get_inputs levels py_int w = (Ok None, w1) ->
  exists r w',
    main levels leagues_multipliers base_birdhouses py_int fuel w = Some (r, w')
    /\ forall plan, r <> Ok (Some plan).
Proof.
  intro Hin. unfold main, main_setup, io_bind. rewrite Hin.
  destruct (check_leagues w1) as [[flag|e] w2]; [|eexists _, _; split;
    [reflexivity | discriminate]].
  destruct flag; [|eexists _, _; split; [reflexivity | discriminate]].
  destruct (get_relic_multiplier py_int w2) as [[tier|e] w3];
    [|eexists _, _; split; [reflexivity | discriminate]].
  unfold lift.
  destruct (getitem Z.eqb leagues_multipliers tier) as [m|e];
    eexists _, _; (split; [reflexivity | discriminate]).
Qed.

(** C7, as the code has it: when the current experience is strictly above
    the target level's threshold, [get_inputs] prints "You've already passed
    your target." and returns the no-input sentinel, and [main] computes no
    plan. *)
Theorem passed_target_aborts w text text' more experience target_level
        minimum target_xp :
  pending w = text :: text' :: more ->
  py_int text = Ok experience -> py_int text' = Ok target_level ->
  level_of levels 5 = Some minimum -> minimum <= experience ->
  level_of levels target_level = Some target_xp ->
  target_xp < experience ->
  get_inputs levels py_int w
  = (Ok None,
     mk_world more
       (shown w
        ++ [Prompt "What is your current Hunter xp? (Example: 2224614) ";
            Prompt "What is your target Hunter level? (Example: 99) ";
            Print "You've already passed your target."])%list) /\
  forall fuel,
  exists r w',
    main levels leagues_multipliers base_birdhouses py_int fuel w = Some (r, w')
    /\ forall plan, r <> Ok (Some plan).
Proof.
  intros Hw Hxp Htarget Hmin Hge Hthreshold Hpassed.
  pose proof (get_inputs_parsed _ _ _ _ _ _ _ _ Hw Hxp Htarget Hmin Hge
                Hthreshold) as Hin.
  destruct (Z.gtb_spec experience target_xp) as [_|]; [|lia].
  split; [exact Hin|]. intro fuel. exact (main_without_inputs fuel _ _ Hin).
Qed.

End Inputs.

(** * The theorems on the sample tables *)

Section OnTheSample.

Local Open Scope string_scope.
Local Open Scope Z_scope.

Lemma sample_unique_keys : NoDup (keys Sample.birdhouses).
Proof.
  repeat constructor; simpl; intuition discriminate.
Qed.

Lemma sample_has_unlock : Forall has_unlock Sample.birdhouses.
Proof. repeat constructor; eexists; reflexivity. Qed.

Lemma sample_positive_yield : Forall positive_yield Sample.birdhouses.
Proof. repeat constructor; eexists; (split; [reflexivity | lia]). Qed.

Lemma sample_thresholds_in_range : thresholds_in_range Sample.levels.
Proof.
  unfold thresholds_in_range, Sample.levels, float_limit.
  repeat (constructor; [simpl; lia|]). constructor.
Qed.

Lemma sample_yields_in_range : Forall yield_in_range Sample.birdhouses.
Proof.
  unfold float_limit.
  constructor; [exists 280; repeat split; unfold float_limit; lia|].
  constructor; [exists 420; repeat split; unfold float_limit; lia|].
  constructor.
Qed.

Example check_level_on_sample :
  check_level Sample.levels 387 = Ok 4 /\
  check_level Sample.levels 388 = Ok 5 /\
  check_level Sample.levels 400 = Ok 5 /\
  check_level Sample.levels 5000 = Ok 20 /\
  check_level Sample.levels (-3) = Ok 0.
Proof. repeat split. Qed.

Example check_birdhouse_tier_on_sample :
  check_birdhouse_tier 4 Sample.birdhouses
  = Ok ("None", Some "Regular birdhouse") /\
  check_birdhouse_tier 9 Sample.birdhouses
  = Ok ("Regular birdhouse", Some "Oak birdhouse") /\
  check_birdhouse_tier 15 Sample.birdhouses = Ok ("Oak birdhouse", None).
Proof. repeat split. Qed.

(** Why the loop is run with fuel: a zero yield raises, a negative one makes
    no trip and the loop spins. *)
Example non_positive_yields :
  calc_trips_to_target Sample.levels 50 400 10
    [("Regular birdhouse", [("Hunter Level", 5); ("Hunter XP", 0)])]
  = Some (Raise ZeroDivisionError) /\
  calc_trips_to_target Sample.levels 50 400 10
    [("Regular birdhouse", [("Hunter Level", 5); ("Hunter XP", -280)])]
  = None.
Proof. split; reflexivity. Qed.

Example sample_run :
  calc_trips_to_target Sample.levels 3 400 20 Sample.birdhouses
  = Some (Ok [[("Regular logs", 8)]; [("Oak logs", 8)]]) /\
  map current_xp
    (loop_states Sample.levels 3 20 Sample.birdhouses (mk_state 400 5 []))
  = [400; 2640; 6000].
Proof. split; reflexivity. Qed.

Lemma check_level_resolves_witness :
  levels_ascending Sample.levels = true /\ 0 <= 400 /\
  exists l e,
    check_level Sample.levels 400 = Ok l /\
    level_of Sample.levels l = Some e /\ e <= 400 /\
    (forall l' a b,
        level_of Sample.levels l' = Some a ->
        level_of Sample.levels (l' + 1) = Some b -> a <= 400 < b -> l' = l).
Proof.
  split; [reflexivity|]. split; [lia|].
  destruct (check_level_resolves Sample.levels eq_refl 1 0 (tl Sample.levels)
              400 eq_refl ltac:(lia))
    as (l & e & m & em & Hl & He & Hle & _ & _ & _ & _ & Huniq).
  exists l, e. repeat split; assumption.
Defined.

Lemma check_birdhouse_tier_resolves_witness :
  tiers_in_unlock_order Sample.birdhouses = true /\
  exists pre post,
    Sample.birdhouses = (pre ++ post)%list /\
    Forall (unlocked_at 9) pre /\ Forall (locked_at 9) post /\
    check_birdhouse_tier 9 Sample.birdhouses
    = Ok (last (keys pre) "None", head (keys post)).
Proof.
  split; [reflexivity|].
  destruct (check_birdhouse_tier_resolves Sample.birdhouses 9 eq_refl)
    as (pre & post & Heq & Hpre & Hpost & Hres & _).
  exists pre, post. repeat split; assumption.
Defined.



Lemma passed_target_aborts_witness :
  level_of Sample.levels 10 = Some 1154 /\ 1154 < 1200 /\
  get_inputs Sample.levels Sample.decimal_int Sample.past_target
  = (Ok None,
     mk_world ["0"]
       [Prompt "What is your current Hunter xp? (Example: 2224614) ";
        Prompt "What is your target Hunter level? (Example: 99) ";
        Print "You've already passed your target."]) /\
  forall fuel,
  exists r w',
    main Sample.levels Sample.multipliers Sample.birdhouses Sample.decimal_int
      fuel Sample.past_target = Some (r, w')
    /\ forall plan, r <> Ok (Some plan).
Proof.
  split; [reflexivity|]. split; [lia|].
  apply (passed_target_aborts Sample.levels Sample.multipliers
           Sample.birdhouses Sample.decimal_int Sample.past_target
           "1200" "10" ["0"] 1200 10 388 1154);
    try reflexivity; lia.
Defined.

Lemma regular_birdhouse_example_witness :
  exists l0 l1,
    check_level Sample.levels 400 = Ok l0 /\
    loop_iterations Sample.levels 2 10 Sample.regular_only (mk_state 400 l0 [])
    = [(mk_state 400 l0 [],
        mk_iteration "Regular birdhouse" None 1154 1120 1 1120 4,
        mk_state 1520 l1 [[("Regular logs", 4)]])] /\
    10 <= l1 /\
    calc_trips_to_target Sample.levels 2 400 10 Sample.regular_only
    = Some (Ok [[("Regular logs", 4)]]) /\
    calc_trips_to_target Sample.levels 1 400 10 Sample.regular_only = None.
Proof.
  exact (regular_birdhouse_example Sample.levels eq_refl Sample.regular 0
           eq_refl eq_refl eq_refl eq_refl).
Defined.

Lemma reached_target_gives_empty_plan_witness :
  level_of Sample.levels 10 = Some 1154 /\ 1154 <= 1154 /\
  calc_trips_to_target Sample.levels 1 1154 10 Sample.birdhouses
  = Some (Ok []).
Proof.
  split; [reflexivity|]. split; [lia|].
  apply (reached_target_gives_empty_plan Sample.levels eq_refl 1154 10 1154
           Sample.birdhouses 0 eq_refl).
  lia.
Defined.

Lemma current_tier_is_a_key_witness :
  388 <= 400 /\
  Forall (fun st =>
            forall cur next,
              check_birdhouse_tier (current_level st) Sample.birdhouses
              = Ok (cur, next) ->
              In cur (keys Sample.birdhouses) /\
              (exists entry,
                  In entry Sample.birdhouses /\ fst entry = cur /\
                  unlocked_at (current_level st) entry) /\
              exists tier, getitem String.eqb Sample.birdhouses cur = Ok tier)
         (loop_states Sample.levels 5 20 Sample.birdhouses (mk_state 400 5 [])).
Proof.
  split; [lia|].
  refine (proj1 (current_tier_is_a_key Sample.levels 20 Sample.birdhouses
                   eq_refl sample_unique_keys
                   ("Regular birdhouse", Sample.regular)
                   [("Oak birdhouse", Sample.oak)] 5 388
                   eq_refl eq_refl eq_refl 5 400 (mk_state 400 5 []) _ _));
    [lia | reflexivity].
Defined.

(** C7, as stated, fails when the experience is exactly the target level's
    threshold: 1154 typed for the experience and 10 for the target, whose
    threshold is 1154.  [get_inputs] prints no message and returns the pair,
    and [main] goes on to compute (and display) a plan, the empty one. *)
Lemma met_target_is_accepted :
  level_of Sample.levels 10 = Some 1154 /\
  Sample.decimal_int "1154" = Ok 1154 /\ Sample.decimal_int "10" = Ok 10 /\
  1154 >= 1154 /\
  get_inputs Sample.levels Sample.decimal_int Sample.at_target
  = (Ok (Some (1154, 10)),
     mk_world ["0"]
       [Prompt "What is your current Hunter xp? (Example: 2224614) ";
        Prompt "What is your target Hunter level? (Example: 99) "]) /\
  fst (get_inputs Sample.levels Sample.decimal_int Sample.at_target)
  <> Ok None /\
  main Sample.levels Sample.multipliers Sample.birdhouses
    Sample.decimal_int 1 Sample.at_target
  = Some (Ok (Some []),
          mk_world []
            [Prompt "What is your current Hunter xp? (Example: 2224614) ";
             Prompt "What is your target Hunter level? (Example: 99) ";
             Prompt "Type 1 if this is Leagues. ";
             Print (newline ++ "Starting from 1154xp, you will need:"
                    ++ newline)]).
Proof.
  split; [reflexivity|]. split; [reflexivity|]. split; [reflexivity|].
  split; [lia|]. split; [reflexivity|]. split; [discriminate|].
  reflexivity.
Qed.

End OnTheSample.

(** * More on the level resolver *)

Section CheckLevelMore.

Variable levels : LevelTable.

(** [check_level] raises on the empty table only, and then [ValueError]
    (from [max] of no keys). *)
Theorem check_level_raises x e :
  check_level levels x = Raise e <-> levels = [] /\ e = ValueError.
Proof.
  unfold check_level. split.
  - destruct levels as [|[l0 e0] rest]; simpl.
    + intros [= <-]. now split.
    + destruct (x <? e0); [discriminate|].
      destruct (check_level_scan rest x); discriminate.
  - intros [-> ->]. reflexivity.
Qed.

Hypothesis ascending : levels_ascending levels = true.

(** The level after the resolved one is tabulated and not reached, unless
    the resolved level is the maximum and every threshold is met. *)
Lemma check_level_next x l :
  check_level levels x = Ok l ->
  (exists e, level_of levels (l + 1) = Some e /\ x < e) \/
  (max_of (keys levels) = Ok l /\ Forall (fun p => snd p <= x) levels).
Proof.
  unfold check_level.
  destruct (check_level_scan levels x) as [l'|] eqn:Hscan.
  - intros [= ->]. left.
    destruct (scan_some _ _ _ Hscan) as (pre & e & post & Heq & Hx & _).
    exists e. split; [|exact Hx].
    apply ascending_in_level_of; [exact ascending|].
    rewrite Heq. apply in_or_app. right. now left.
  - intro Hm. right. split; [exact Hm | now apply scan_none].
Qed.

(** More experience never resolves to a lower level. *)
Theorem check_level_monotone x y lx ly :
  x <= y ->
  check_level levels x = Ok lx -> check_level levels y = Ok ly ->
  lx <= ly.
Proof.
  intros Hxy Hx Hy.
  destruct (check_level_next y ly Hy) as [(e & He & Hlt)|[Hmax _]].
  - pose proof (check_level_below levels ascending x lx (ly + 1) e Hx He
                  ltac:(lia)). lia.
  - destruct (check_level_next x lx Hx) as [(e & He & _)|[Hmax' _]].
    + pose proof (max_of_upper _ _ _ Hmax (level_of_in_keys _ _ _ He)). lia.
    + rewrite Hmax in Hmax'. injection Hmax' as <-. lia.
Qed.

(** The resolved level lies between the level before the first tabulated
    one and the last tabulated one, and it is the level before the first
    exactly when the experience is below the first threshold. *)
Theorem check_level_range lo e0 rest x l m :
  levels = (lo, e0) :: rest ->
  check_level levels x = Ok l -> max_of (keys levels) = Ok m ->
  lo - 1 <= l <= m /\ (l = lo - 1 <-> x < e0).
Proof.
  intros Hlv Hl Hm.
  assert (Hlo : level_of levels lo = Some e0).
  { rewrite Hlv. unfold level_of. simpl. now rewrite Z.eqb_refl. }
  assert (Hupper : l <= m).
  { destruct (check_level_next x l Hl) as [(e & He & _)|[Hmax _]].
    - pose proof (max_of_upper _ _ _ Hm (level_of_in_keys _ _ _ He)). lia.
    - rewrite Hm in Hmax. injection Hmax as <-. lia. }
  destruct (Z_lt_ge_dec x e0) as [Hlt|Hge].
  - assert (l = lo - 1).
    { revert Hl. unfold check_level. rewrite Hlv. simpl.
      destruct (Z.ltb_spec x e0); [|lia]. now intros [= <-]. }
    split; [lia|]. split; [intros _; exact Hlt | intros _; assumption].
  - destruct (check_level_lower levels ascending x lo e0 Hlo ltac:(lia))
      as (l' & Hl' & Hle).
    rewrite Hl in Hl'. injection Hl' as <-.
    split; [lia|]. split; intro; lia.
Qed.

End CheckLevelMore.

(** * More on the tier resolver and the multiplier *)

Section TierResolverMore.

Lemma tier_scan_raises items : forall c lvl e,
  check_birdhouse_tier_scan c items lvl = Raise e <->
  e = KeyError /\
  exists pre entry post,
    items = pre ++ entry :: post /\
    Forall (unlocked_at lvl) pre /\ unlock_of entry = None.
Proof.
  induction items as [|[tier tier_level] rest IH]; intros c lvl e; simpl.
  - split; [discriminate|]. intros (_ & pre & entry & post & Heq & _).
    now destruct pre.
  - destruct (hunter_level tier_level) as [u|e'] eqn:Hu; simpl.
    + apply (hunter_level_unlock (tier, tier_level)) in Hu.
      destruct (Z.ltb_spec lvl u) as [Hlt|Hge].
      * split; [discriminate|].
        intros (_ & pre & entry & post & Heq & Hpre & Hnone).
        destruct pre as [|p pre']; simpl in Heq; injection Heq as <- _.
        -- congruence.
        -- inversion Hpre as [|? ? (u' & Hu' & Hle) _]; subst.
           rewrite Hu in Hu'. injection Hu' as <-. lia.
      * rewrite IH. split.
        -- intros (He & pre & entry & post & -> & Hpre & Hnone).
           split; [exact He|].
           exists ((tier, tier_level) :: pre), entry, post.
           repeat split; [|exact Hnone].
           constructor; [exists u; now split | exact Hpre].
        -- intros (He & pre & entry & post & Heq & Hpre & Hnone).
           split; [exact He|].
           destruct pre as [|p pre']; simpl in Heq; injection Heq as <- Hrest.
           ++ congruence.
           ++ exists pre', entry, post. repeat split; try assumption.
              now inversion Hpre.
    + assert (Hnone : unlock_of (tier, tier_level) = None).
      { revert Hu. unfold hunter_level, getitem, unlock_of, field. simpl.
        now destruct (get String.eqb tier_level "Hunter Level"%string). }
      assert (He' : e' = KeyError).
      { revert Hu. unfold hunter_level, getitem.
        destruct (get String.eqb tier_level "Hunter Level"%string);
          [discriminate | now intros [= <-]]. }
      subst e'. split.
      * intros [= <-]. split; [reflexivity|].
        exists [], (tier, tier_level), rest. now repeat split.
      * now intros [-> _].
Qed.

(** [check_birdhouse_tier] raises nothing but [KeyError], and that exactly
    when the scan meets a tier without a ["Hunter Level"] before it meets a
    tier that is still locked. *)
Theorem check_birdhouse_tier_raises lvl birdhouses e :
  check_birdhouse_tier lvl birdhouses = Raise e <->
  e = KeyError /\
  exists pre entry post,
    birdhouses = pre ++ entry :: post /\
    Forall (unlocked_at lvl) pre /\ unlock_of entry = None.
Proof. apply tier_scan_raises. Qed.

Lemma hunter_level_scaled m (t : Tier) :
  hunter_level (scale_tier m t) = hunter_level t.
Proof.
  unfold hunter_level, getitem.
  change (get String.eqb (scale_tier m t) "Hunter Level"%string)
    with (field (scale_tier m t) "Hunter Level"%string).
  rewrite scale_tier_field. reflexivity.
Qed.

Lemma unlock_of_scaled m (entry : string * Tier) :
  unlock_of (fst entry, scale_tier m (snd entry)) = unlock_of entry.
Proof. unfold unlock_of. simpl. now rewrite scale_tier_field. Qed.

Lemma yield_of_scaled m (entry : string * Tier) :
  yield_of (fst entry, scale_tier m (snd entry))
  = option_map (fun y => y * m) (yield_of entry).
Proof. unfold yield_of. simpl. now rewrite scale_tier_field. Qed.

(** The multiplier does not change which tier is current and which is
    next. *)
Theorem check_birdhouse_tier_scaled m lvl birdhouses :
  check_birdhouse_tier lvl (scale_birdhouses m birdhouses)
  = check_birdhouse_tier lvl birdhouses.
Proof.
  unfold check_birdhouse_tier. generalize "None"%string as c.
  induction birdhouses as [|[tier tier_level] rest IH]; intro c; simpl;
    [reflexivity|].
  rewrite hunter_level_scaled.
  destruct (hunter_level tier_level) as [u|]; simpl; [|reflexivity].
  destruct (lvl <? u); [reflexivity | apply IH].
Qed.

Lemma scale_tier_compose m n (t : Tier) :
  scale_tier m (scale_tier n t) = scale_tier (n * m) t.
Proof.
  unfold scale_tier. rewrite map_map. apply map_ext. intros [k v]. simpl.
  destruct (String.eqb k "Hunter XP"%string); [now rewrite Z.mul_assoc | reflexivity].
Qed.

Lemma scale_tier_one (t : Tier) : scale_tier 1 t = t.
Proof.
  unfold scale_tier. rewrite <- (map_id t) at 2. apply map_ext.
  intros [k v]. simpl.
  destruct (String.eqb k "Hunter XP"%string); [now rewrite Z.mul_1_r | reflexivity].
Qed.

(** Scaling by 1 changes nothing, and scaling twice is scaling by the
    product. *)
Theorem scale_birdhouses_compose m n birdhouses :
  scale_birdhouses 1 birdhouses = birdhouses /\
  scale_birdhouses m (scale_birdhouses n birdhouses)
  = scale_birdhouses (n * m) birdhouses.
Proof.
  unfold scale_birdhouses. split.
  - rewrite <- (map_id birdhouses) at 2. apply map_ext. intros [k t]. simpl.
    now rewrite scale_tier_one.
  - rewrite map_map. apply map_ext. intros [k t]. simpl.
    now rewrite scale_tier_compose.
Qed.

Lemma scale_birdhouses_forall (P Q : string * Tier -> Prop) m birdhouses :
  (forall entry, P entry -> Q (fst entry, scale_tier m (snd entry))) ->
  Forall P birdhouses -> Forall Q (scale_birdhouses m birdhouses).
Proof.
  intros HPQ Hall. unfold scale_birdhouses. apply Forall_map.
  eapply Forall_impl; [|exact Hall]. intros entry HP. now apply HPQ.
Qed.

Lemma unlock_order_ext birdhouses : forall birdhouses',
  map unlock_of birdhouses = map unlock_of birdhouses' ->
  tiers_in_unlock_order birdhouses = tiers_in_unlock_order birdhouses'.
Proof.
  induction birdhouses as [|entry rest IH]; intros [|entry2 rest2] Heq;
    try discriminate; [reflexivity|].
  simpl in Heq. injection Heq as Hhd Htl.
  cbn [tiers_in_unlock_order]. rewrite Hhd.
  destruct (unlock_of entry2) as [u|]; [|reflexivity].
  rewrite (IH rest2 Htl).
  destruct rest as [|e rest'], rest2 as [|e2 rest2']; try discriminate;
    [reflexivity|].
  simpl in Htl. injection Htl as He _. now rewrite He.
Qed.

Lemma unlock_levels_scaled m birdhouses :
  map unlock_of (scale_birdhouses m birdhouses) = map unlock_of birdhouses.
Proof.
  unfold scale_birdhouses. rewrite map_map. apply map_ext.
  intro entry. apply unlock_of_scaled.
Qed.

(** A positive multiplier keeps the table fit for planning: the same tier
    names (still unique), the same unlock levels in the same order, and
    yields that are still positive. *)
Theorem scale_birdhouses_keeps_invariants m birdhouses :
  0 < m ->
  (NoDup (keys birdhouses) -> NoDup (keys (scale_birdhouses m birdhouses))) /\
  (Forall has_unlock birdhouses ->
   Forall has_unlock (scale_birdhouses m birdhouses)) /\
  (Forall positive_yield birdhouses ->
   Forall positive_yield (scale_birdhouses m birdhouses)) /\
  tiers_in_unlock_order (scale_birdhouses m birdhouses)
  = tiers_in_unlock_order birdhouses /\
  map unlock_of (scale_birdhouses m birdhouses) = map unlock_of birdhouses.
Proof.
  intro Hm. split; [now rewrite scale_birdhouses_keys|]. split; [|split].
  - apply scale_birdhouses_forall. intros entry [u Hu]. exists u.
    now rewrite unlock_of_scaled.
  - apply scale_birdhouses_forall. intros entry (y & Hy & Hpos).
    exists (y * m). rewrite yield_of_scaled, Hy. split; [reflexivity | nia].
  - split; [|apply unlock_levels_scaled].
    apply unlock_order_ext, unlock_levels_scaled.
Qed.

End TierResolverMore.

(** * More on the trips to a benchmark *)

Section TripsMore.

Variable levels : LevelTable.
Variable target_level : Z.
Variable birdhouses : TierTable.

(** Rounding up by a positive divisor: the least multiple that covers. *)
Lemma ceil_div_tight a b n :
  0 < b -> ceil_div a b = Ok n -> a <= n * b < a + b.
Proof.
  unfold ceil_div. intro Hb. destruct (Z.eqb_spec b 0); [lia|].
  intros [= <-].
  pose proof (Z.div_mod (- a) b ltac:(lia)) as Hdm.
  pose proof (Z.mod_pos_bound (- a) b Hb) as Hr.
  nia.
Qed.

Lemma calc_trips_to_next_benchmark_inv x total_trips logs end_xp :
  calc_trips_to_next_benchmark levels x target_level birdhouses
    = Ok (total_trips, logs, end_xp) ->
  exists target_xp level cur next tier yield,
    level_of levels target_level = Some target_xp /\
    check_level levels x = Ok level /\
    check_birdhouse_tier level birdhouses = Ok (cur, next) /\
    tier_of birdhouses cur = Some tier /\
    field tier "Hunter XP" = Some yield /\
    ceil_div (target_xp - x) (yield * 4) = Ok total_trips /\
    logs = total_trips * 4 /\
    end_xp = total_trips * (yield * 4) + x.
Proof.
  unfold calc_trips_to_next_benchmark.
  destruct (getitem Z.eqb levels target_level) as [target_xp|] eqn:Ht;
    cbn [bind]; [|discriminate].
  destruct (check_level levels x) as [level|] eqn:Hl; cbn [bind];
    [|discriminate].
  destruct (check_birdhouse_tier level birdhouses) as [[cur next]|] eqn:Htiers;
    cbn [bind fst]; [|discriminate].
  destruct (getitem String.eqb birdhouses cur) as [tier|] eqn:Htier;
    cbn [bind]; [|discriminate].
  destruct (hunter_xp tier) as [yield|] eqn:Hyield; cbn [bind]; [|discriminate].
  destruct (ceil_div _ _) as [n|] eqn:Hn; cbn [bind]; [|discriminate].
  intros [= <- <- <-].
  apply getitem_ok in Ht, Htier, Hyield.
  exists target_xp, level, cur, next, tier, yield. now repeat split.
Qed.

(** With positive yields and within the range where the source's float
    division is exact (experience and target threshold from 0 to below 2^53,
    trip yields below 2^53), [calc_trips_to_next_benchmark] divides operands
    in that range and returns the least number of trips that reaches the
    target's threshold: the experience it ends with reaches the threshold and
    overshoots it by less than one trip.  The logs are four per trip.  At or
    past the threshold the trips are zero or negative. *)
Theorem calc_trips_to_next_benchmark_least x target_xp total_trips logs end_xp :
  Forall yield_in_range birdhouses ->
  0 <= x < float_limit -> 0 <= target_xp < float_limit ->
  level_of levels target_level = Some target_xp ->
  calc_trips_to_next_benchmark levels x target_level birdhouses
    = Ok (total_trips, logs, end_xp) ->
  exists name tier yield,
    tier_of birdhouses name = Some tier /\
    field tier "Hunter XP" = Some yield /\ 0 < yield /\
    float_exact (target_xp - x) (yield * 4) /\
    logs = total_trips * 4 /\
    end_xp = x + total_trips * (yield * 4) /\
    target_xp <= end_xp < target_xp + yield * 4 /\
    (x < target_xp -> 1 <= total_trips) /\
    (target_xp <= x -> total_trips <= 0).
Proof.
  intros Hyields Hx Htarget Ht Hcalc.
  destruct (calc_trips_to_next_benchmark_inv _ _ _ _ Hcalc)
    as (et & level & cur & next & tier & yield
        & Ht' & _ & _ & Htier & Hyield & Hn & Hlogs & Hend).
  rewrite Ht in Ht'. injection Ht' as <-.
  pose proof (tier_of_in _ _ _ Htier) as Hin.
  rewrite Forall_forall in Hyields.
  destruct (Hyields _ Hin) as (y & Hy & Hypos & Hysmall).
  unfold yield_of in Hy. simpl in Hy. rewrite Hyield in Hy. injection Hy as ->.
  apply ceil_div_tight in Hn; [|lia].
  exists cur, tier, y. unfold float_exact.
  repeat split; try assumption; try lia; nia.
Qed.

(** When the loop is headed for the target's threshold, its iteration
    computes what [calc_trips_to_next_benchmark] returns: the same trips, the
    same logs, the same experience afterwards. *)
Theorem loop_body_agrees_with_next_benchmark st it st' :
  level_resolved levels st ->
  loop_body levels target_level birdhouses st = Ok (it, st') ->
  level_of levels target_level = Some (next_benchmark it) ->
  calc_trips_to_next_benchmark levels (current_xp st) target_level birdhouses
  = Ok (trips it, logs_needed it, current_xp st').
Proof.
  intros Hres Hb Ht.
  destruct (loop_body_inv _ _ _ _ _ _ Hb)
    as (tier & yield & Htiers & _ & Htier & Hyield & Hbxp & Hn & Hgain
        & Hlogs & Hxp & _).
  unfold calc_trips_to_next_benchmark.
  apply getitem_ok in Ht. rewrite Ht. cbn [bind].
  unfold level_resolved in Hres. rewrite Hres. cbn [bind].
  rewrite Htiers. cbn [bind fst].
  apply getitem_ok in Htier. rewrite Htier. cbn [bind].
  apply getitem_ok in Hyield. fold (hunter_xp tier) in Hyield.
  rewrite Hyield. cbn [bind].
  rewrite <- Hbxp, Hn. cbn [bind].
  rewrite Hlogs, Hxp, Hgain. f_equal. f_equal. lia.
Qed.

End TripsMore.

(** * More on the stepper *)

Section StepperMore.

Variable levels : LevelTable.
Variable target_level : Z.
Variable birdhouses : TierTable.

(** What the loop returns, in terms of the iterations it ran: the plan grew
    by one step per iteration, the experience by the sum of the gains, and
    the loop condition is false. *)
Lemma while_loop_trace : forall fuel st st',
  while_loop levels fuel target_level birdhouses st = Some (Ok st') ->
  logs_to_target st'
  = (logs_to_target st
     ++ map step_of (loop_iterations levels fuel target_level birdhouses st))%list
  /\ current_xp st'
     = current_xp st
       + total_gain (loop_iterations levels fuel target_level birdhouses st)
  /\ loop_cond target_level st' = false
  /\ (level_resolved levels st -> level_resolved levels st').
Proof.
  induction fuel as [|fuel IH]; intros st st'; [discriminate|]. simpl.
  destruct (loop_cond target_level st) eqn:Hc.
  - destruct (loop_body levels target_level birdhouses st) as [[it st1]|] eqn:Hb;
      [|discriminate].
    intro Hw. destruct (IH _ _ Hw) as (Hlogs & Hxp & Hstop & Hres).
    destruct (loop_body_inv _ _ _ _ _ _ Hb)
      as (? & ? & _ & _ & _ & _ & _ & _ & _ & _ & Hxp1 & Hl1 & Hpath).
    repeat split.
    + rewrite Hlogs, Hpath, <- app_assoc. reflexivity.
    + rewrite Hxp, Hxp1. simpl. lia.
    + exact Hstop.
    + intros _. apply Hres. exact Hl1.
  - intros [= <-]. simpl. rewrite app_nil_r.
    repeat split; [lia | exact Hc | trivial].
Qed.

Hypothesis ascending : levels_ascending levels = true.

(** The plan [calc_trips_to_target] returns does reach the target: after
    the gains of its iterations the resolved level is the target level at
    least, and the target's threshold (when tabulated) is met. *)
Theorem plan_reaches_target fuel x plan :
  calc_trips_to_target levels fuel x target_level birdhouses = Some (Ok plan) ->
  exists l0 st',
    check_level levels x = Ok l0 /\
    while_loop levels fuel target_level birdhouses (mk_state x l0 [])
    = Some (Ok st') /\
    plan = map step_of
             (loop_iterations levels fuel target_level birdhouses
                (mk_state x l0 [])) /\
    current_xp st'
    = x + total_gain (loop_iterations levels fuel target_level birdhouses
                        (mk_state x l0 [])) /\
    check_level levels (current_xp st') = Ok (current_level st') /\
    target_level <= current_level st' /\
    (forall target_xp,
        level_of levels target_level = Some target_xp ->
        target_xp <= current_xp st').
Proof.
  unfold calc_trips_to_target, initial_state.
  destruct (check_level levels x) as [l0|] eqn:Hl0; cbn [bind]; [|discriminate].
  destruct (while_loop levels fuel target_level birdhouses (mk_state x l0 []))
    as [[st'|]|] eqn:Hw; try discriminate.
  intros [= <-].
  destruct (while_loop_trace _ _ _ Hw) as (Hlogs & Hxp & Hstop & Hres).
  specialize (Hres Hl0). unfold loop_cond in Hstop. apply Z.ltb_ge in Hstop.
  exists l0, st'. repeat split; try assumption.
  intros target_xp Ht.
  destruct (Z_le_gt_dec target_xp (current_xp st')) as [|Hgt]; [assumption|].
  pose proof (check_level_below levels ascending _ _ _ _ Hres Ht ltac:(lia)).
  lia.
Qed.

(** The plan is empty exactly when the starting experience has already
    reached the target's threshold. *)
Theorem plan_empty_iff_reached fuel x plan target_xp :
  level_of levels target_level = Some target_xp ->
  calc_trips_to_target levels fuel x target_level birdhouses = Some (Ok plan) ->
  (plan = [] <-> target_xp <= x).
Proof.
  intros Ht. unfold calc_trips_to_target, initial_state.
  destruct (check_level levels x) as [l0|] eqn:Hl0; cbn [bind]; [|discriminate].
  destruct (while_loop levels fuel target_level birdhouses (mk_state x l0 []))
    as [[st'|]|] eqn:Hw; try discriminate.
  intros [= <-].
  destruct (while_loop_trace _ _ _ Hw) as (Hlogs & _).
  destruct fuel as [|fuel]; [discriminate|]. simpl in Hw, Hlogs.
  destruct (loop_cond target_level (mk_state x l0 [])) eqn:Hc.
  - unfold loop_cond in Hc. simpl in Hc. apply Z.ltb_lt in Hc.
    pose proof (check_level_upper levels ascending _ _ _ _ Hl0 Ht Hc) as Hlt.
    destruct (loop_body levels target_level birdhouses (mk_state x l0 []))
      as [[it st1]|]; [|discriminate].
    rewrite Hlogs. split; [discriminate | lia].
  - unfold loop_cond in Hc. simpl in Hc. apply Z.ltb_ge in Hc.
    injection Hw as <-. split; [intros _ | reflexivity].
    destruct (Z_le_gt_dec target_xp x) as [|Hgt]; [assumption|].
    pose proof (check_level_below levels ascending _ _ _ _ Hl0 Ht ltac:(lia)).
    lia.
Qed.

Hypothesis unique_keys : NoDup (keys birdhouses).
Hypothesis positive_yields : Forall positive_yield birdhouses.

(** With positive yields and within the range where the source's float
    division is exact (thresholds from 0 to below 2^53, trip yields below
    2^53, experience not negative), every iteration divides operands in that
    range and makes the least number of trips that reaches its benchmark: at
    least one, four logs each, and the experience afterwards overshoots the
    benchmark by less than one trip. *)
Theorem every_iteration_least fuel x st0 :
  thresholds_in_range levels -> Forall yield_in_range birdhouses ->
  0 <= x ->
  initial_state levels x = Ok st0 ->
  Forall (fun '(s, it, s') =>
            float_exact (next_benchmark it - current_xp s) (birdhouse_xp it) /\
            1 <= trips it /\
            logs_needed it = 4 * trips it /\
            current_xp s' = current_xp s + trips it * birdhouse_xp it /\
            current_xp s < next_benchmark it /\
            next_benchmark it <= current_xp s'
              < next_benchmark it + birdhouse_xp it)
         (loop_iterations levels fuel target_level birdhouses st0).
Proof.
  intros Hlevels Hyields Hx Hinit.
  destruct (initial_state_resolved _ _ _ Hinit) as [Hx0 Hres].
  pose proof (loop_divisions_exact levels target_level birdhouses ascending
                unique_keys fuel st0 Hlevels Hyields Hres ltac:(lia))
    as Hexact.
  unfold divisions_exact in Hexact.
  pose proof (loop_iterations_inv levels target_level birdhouses
                (level_resolved levels)
                (fun st it st' _ _ Hb => loop_body_resolved _ _ _ _ _ _ Hb)
                fuel st0 Hres) as Hinv.
  rewrite Forall_forall in Hexact, Hinv. apply Forall_forall.
  intros [[s it] s'] Hr. specialize (Hexact _ Hr). specialize (Hinv _ Hr).
  cbn [fst snd] in Hexact, Hinv. destruct Hinv as (Hs & Hc & Hb).
  split; [exact Hexact|].
  pose proof (benchmark_ahead levels target_level birdhouses ascending
                unique_keys _ _ _ Hs Hc Hb) as Hgap.
  destruct (loop_body_inv _ _ _ _ _ _ Hb)
    as (tier & yield & _ & _ & Htier & Hyield & Hbxp & Hn & Hgain & Hlogs
        & Hxp & _).
  apply tier_of_in in Htier.
  pose proof (yields_in_range_positive _ Hyields) as Hpos.
  rewrite Forall_forall in Hpos.
  destruct (Hpos _ Htier) as (y & Hy & Hypos).
  unfold yield_of in Hy. simpl in Hy. rewrite Hyield in Hy. injection Hy as ->.
  assert (Hbpos : 0 < birdhouse_xp it) by lia.
  pose proof (ceil_div_tight _ _ _ Hbpos Hn) as Htight.
  repeat split; try lia; nia.
Qed.

(** Every step of a returned plan asks for a positive multiple of four logs
    of the kind named by the first word of some tier of the table. *)
Theorem plan_steps_shape fuel x plan :
  calc_trips_to_target levels fuel x target_level birdhouses = Some (Ok plan) ->
  Forall (fun step =>
            exists name n,
              In name (keys birdhouses) /\ 1 <= n /\
              step = [(String.append (split_first name) " logs", 4 * n)])
         plan.
Proof.
  intro Hcalc. pose proof Hcalc as Hrun. revert Hrun.
  unfold calc_trips_to_target.
  destruct (initial_state levels x) as [st0|] eqn:Hinit; [|discriminate].
  destruct (while_loop levels fuel target_level birdhouses st0)
    as [[st'|]|] eqn:Hw; try discriminate.
  intros [= <-].
  destruct (while_loop_trace _ _ _ Hw) as (Hlogs & _).
  assert (Hempty : logs_to_target st0 = []).
  { revert Hinit. unfold initial_state.
    destruct (check_level levels x); cbn [bind]; [|discriminate].
    now intros [= <-]. }
  rewrite Hlogs, Hempty. simpl app. apply Forall_map.
  destruct (initial_state_resolved _ _ _ Hinit) as [_ Hres].
  eapply Forall_impl;
    [|exact (loop_iterations_inv levels target_level birdhouses
               (level_resolved levels)
               (fun st it st' _ _ Hb => loop_body_resolved _ _ _ _ _ _ Hb)
               fuel st0 Hres)].
  intros [[s it] s']. cbn [fst snd]. intros (Hs & Hc & Hb).
  destruct (loop_body_advances levels target_level birdhouses ascending
              unique_keys _ _ _ positive_yields Hs Hc Hb) as (Htrips & _).
  destruct (loop_body_inv _ _ _ _ _ _ Hb)
    as (tier & yield & _ & _ & Htier & _ & _ & _ & _ & Hlogs' & _).
  exists (current_tier it), (trips it). split; [|split; [exact Htrips|]].
  - apply tier_of_in in Htier. unfold keys.
    change (current_tier it) with (fst (current_tier it, tier)).
    now apply in_map.
  - unfold step_of, format_logs. simpl. rewrite Hlogs'.
    now rewrite Z.mul_comm.
Qed.

End StepperMore.

(** * Where the stepper fails or spins *)

Section StepperEdges.

Variable levels : LevelTable.
Variable target_level : Z.
Variable birdhouses : TierTable.

Lemma getitem_raises {K V : Type} (eqb : K -> K -> bool) (d : dict K V) k e :
  getitem eqb d k = Raise e -> e = KeyError.
Proof.
  unfold getitem. destruct (get eqb d k); [discriminate | now intros [= <-]].
Qed.

Lemma next_benchmark_raises next e :
  next_benchmark_of levels target_level birdhouses next = Raise e ->
  e = KeyError.
Proof.
  unfold next_benchmark_of. destruct next as [nt|]; [|apply getitem_raises].
  destruct (getitem String.eqb birdhouses nt) as [tier|e1] eqn:H1; cbn [bind].
  - unfold hunter_level.
    destruct (getitem String.eqb tier "Hunter Level"%string) as [u|e2] eqn:H2;
      cbn [bind].
    + destruct (target_level <? u); apply getitem_raises.
    + intros [= <-]. exact (getitem_raises _ _ _ _ H2).
  - intros [= <-]. exact (getitem_raises _ _ _ _ H1).
Qed.

(** Below the first tier's unlock level the current tier is the sentinel
    "None", which names no tier: [calc_trips_to_target] (when the target lies
    ahead) and [calc_trips_to_next_benchmark] both end in [KeyError]. *)
Theorem below_first_tier_raises first rest u0 x l fuel :
  birdhouses = first :: rest ->
  unlock_of first = Some u0 ->
  tier_of birdhouses "None" = None ->
  check_level levels x = Ok l -> l < u0 ->
  check_birdhouse_tier l birdhouses = Ok ("None"%string, Some (fst first)) /\
  calc_trips_to_next_benchmark levels x target_level birdhouses
  = Raise KeyError /\
  (l < target_level ->
   calc_trips_to_target levels (S fuel) x target_level birdhouses
   = Some (Raise KeyError)).
Proof.
  intros Hbh Hu0 Hnone Hl Hlt.
  assert (Htiers : check_birdhouse_tier l birdhouses
                   = Ok ("None"%string, Some (fst first))).
  { rewrite Hbh. unfold check_birdhouse_tier. destruct first as [name tier].
    cbn [check_birdhouse_tier_scan fst].
    apply (hunter_level_unlock (name, tier)) in Hu0. cbn [snd] in Hu0.
    rewrite Hu0. cbn [bind]. destruct (Z.ltb_spec l u0); [reflexivity|lia]. }
  assert (Hmiss : getitem String.eqb birdhouses "None"%string = Raise KeyError).
  { unfold getitem. unfold tier_of in Hnone. now rewrite Hnone. }
  split; [exact Htiers|]. split.
  - unfold calc_trips_to_next_benchmark.
    destruct (getitem Z.eqb levels target_level) as [target_xp|e] eqn:Ht;
      cbn [bind].
    + rewrite Hl. cbn [bind]. rewrite Htiers. cbn [bind fst].
      rewrite Hmiss. reflexivity.
    + now rewrite (getitem_raises _ _ _ _ Ht).
  - intro Hahead. unfold calc_trips_to_target, initial_state.
    rewrite Hl. cbn [bind]. cbn [while_loop].
    unfold loop_cond. cbn [current_level].
    destruct (Z.ltb_spec l target_level); [|lia].
    unfold loop_body. cbn [current_level]. rewrite Htiers. cbn [bind].
    destruct (next_benchmark_of levels target_level birdhouses
                (Some (fst first))) as [b|e] eqn:Hb; cbn [bind].
    + rewrite Hmiss. reflexivity.
    + now rewrite (next_benchmark_raises _ _ Hb).
Qed.

(** The loop body looks at the experience and the level only: the plan
    collected so far does not change what it computes. *)
Lemma loop_body_any_plan st it st' path :
  loop_body levels target_level birdhouses st = Ok (it, st') ->
  loop_body levels target_level birdhouses
    (mk_state (current_xp st) (current_level st) path)
  = Ok (it, mk_state (current_xp st') (current_level st')
              (path ++ [format_logs (current_tier it) (logs_needed it)])).
Proof.
  unfold loop_body. cbn [current_xp current_level logs_to_target].
  destruct (check_birdhouse_tier _ _) as [[cur next]|]; cbn [bind];
    [|discriminate].
  destruct (next_benchmark_of _ _ _ _) as [benchmark|]; cbn [bind];
    [|discriminate].
  destruct (getitem String.eqb birdhouses cur) as [tier|]; cbn [bind];
    [|discriminate].
  destruct (hunter_xp tier) as [yield|]; cbn [bind]; [|discriminate].
  destruct (ceil_div _ _) as [n|]; cbn [bind]; [|discriminate].
  destruct (check_level _ _) as [level'|]; cbn [bind]; [|discriminate].
  intros [= <- <-]. reflexivity.
Qed.

(** An iteration that gains no experience repeats for ever: whatever the
    fuel, the loop is still running when it is spent. *)
Theorem no_gain_never_returns x st0 it st' :
  initial_state levels x = Ok st0 ->
  loop_cond target_level st0 = true ->
  loop_body levels target_level birdhouses st0 = Ok (it, st') ->
  xp_gain it = 0 ->
  forall fuel,
    calc_trips_to_target levels fuel x target_level birdhouses = None.
Proof.
  intros Hinit Hcond Hbody Hgain fuel.
  unfold calc_trips_to_target. rewrite Hinit.
  destruct (initial_state_resolved _ _ _ Hinit) as [_ Hres].
  destruct (loop_body_inv _ _ _ _ _ _ Hbody)
    as (_ & _ & _ & _ & _ & _ & _ & _ & _ & _ & Hxp & Hl' & _).
  rewrite Hgain, Z.add_0_r in Hxp. rewrite Hxp in Hl'.
  unfold level_resolved in Hres. rewrite Hres in Hl'. injection Hl' as Hl'.
  assert (Hspin : forall n path,
             while_loop levels n target_level birdhouses
               (mk_state (current_xp st0) (current_level st0) path) = None).
  { induction n as [|n IH]; intro path; [reflexivity|].
    cbn [while_loop].
    change (loop_cond target_level
              (mk_state (current_xp st0) (current_level st0) path))
      with (loop_cond target_level st0).
    rewrite Hcond, (loop_body_any_plan _ _ _ path Hbody), Hxp, <- Hl'.
    apply IH. }
  specialize (Hspin fuel (logs_to_target st0)).
  destruct st0 as [xp0 l0 path0].
  cbn [current_xp current_level logs_to_target] in Hspin.
  now rewrite Hspin.
Qed.

End StepperEdges.

Section ZeroYield.

Variable levels : LevelTable.
Variable target_level : Z.
Variable birdhouses : TierTable.

Hypothesis ascending : levels_ascending levels = true.
Hypothesis unique_keys : NoDup (keys birdhouses).

(** A tabulated level [u0] whose threshold the experience has reached (the
    level 5 of [get_inputs], say), and the tabulated target. *)
Variable u0 e0 target_xp : Z.
Hypothesis first_threshold : level_of levels u0 = Some e0.
Hypothesis target_threshold : level_of levels target_level = Some target_xp.

(** From a tabulated level on, the benchmark of the resolved tiers is
    always found in the level table. *)
Lemma next_benchmark_found l cur next :
  u0 <= l ->
  check_birdhouse_tier l birdhouses = Ok (cur, next) ->
  exists b, next_benchmark_of levels target_level birdhouses next = Ok b.
Proof.
  intros Hl Htiers. unfold next_benchmark_of. destruct next as [nt|].
  - destruct (next_tier_locked _ _ _ _ Htiers)
      as (nx & u & Hnx & Hnt & Hu & Hlt).
    pose proof (nodup_tier_of _ _ unique_keys Hnx) as Hget.
    rewrite Hnt in Hget. apply getitem_ok in Hget. rewrite Hget. cbn [bind].
    apply hunter_level_unlock in Hu. rewrite Hu. cbn [bind].
    destruct (Z.ltb_spec target_level u) as [Habove|Hbelow].
    + exists target_xp. now apply getitem_ok.
    + destruct (level_of_between levels u0 target_level e0 target_xp u
                  ascending first_threshold target_threshold) as [e He];
        [lia|].
      exists e. now apply getitem_ok.
  - exists target_xp. now apply getitem_ok.
Qed.

(** A current tier that yields no experience stops the planner with
    [ZeroDivisionError] in its first iteration. *)
Theorem zero_yield_raises x l cur next tier fuel :
  e0 <= x -> x < target_xp ->
  check_level levels x = Ok l ->
  check_birdhouse_tier l birdhouses = Ok (cur, next) ->
  tier_of birdhouses cur = Some tier ->
  field tier "Hunter XP" = Some 0 ->
  calc_trips_to_target levels (S fuel) x target_level birdhouses
  = Some (Raise ZeroDivisionError).
Proof.
  intros Hx Hbelow Hl Htiers Htier Hyield.
  destruct (check_level_lower levels ascending x u0 e0 first_threshold Hx)
    as (l' & Hl' & Hu0).
  rewrite Hl in Hl'. injection Hl' as <-.
  pose proof (check_level_below levels ascending x l target_level target_xp
                Hl target_threshold Hbelow) as Hahead.
  destruct (next_benchmark_found l cur next Hu0 Htiers) as [b Hb].
  unfold calc_trips_to_target, initial_state. rewrite Hl. cbn [bind].
  cbn [while_loop]. unfold loop_cond. cbn [current_level].
  destruct (Z.ltb_spec l target_level); [|lia].
  unfold loop_body. cbn [current_level current_xp]. rewrite Htiers. cbn [bind].
  rewrite Hb. cbn [bind].
  apply getitem_ok in Htier. rewrite Htier. cbn [bind].
  apply getitem_ok in Hyield. fold (hunter_xp tier) in Hyield.
  rewrite Hyield. cbn [bind]. reflexivity.
Qed.

End ZeroYield.

(** * More on the material label *)

Section FormatLogsMore.

Lemma split_first_no_space s : has_space (split_first s) = false.
Proof.
  induction s as [|c s IH]; [reflexivity|]. simpl.
  destruct (Ascii.eqb c " ") eqn:Hc; [reflexivity|]. simpl.
  now rewrite Hc.
Qed.

Lemma split_first_word w : forall rest,
  has_space w = false ->
  split_first (String.append w (String " " rest)) = w.
Proof.
  induction w as [|c w IH]; intros rest Hw; [reflexivity|].
  simpl in Hw. apply orb_false_elim in Hw. destruct Hw as [Hc Hw].
  simpl. rewrite Hc. now rewrite IH.
Qed.

Lemma split_first_whole s : has_space s = false -> split_first s = s.
Proof.
  induction s as [|c s IH]; intro Hs; [reflexivity|].
  simpl in Hs. apply orb_false_elim in Hs. destruct Hs as [Hc Hs].
  simpl. rewrite Hc. now rewrite IH.
Qed.

(** The label of a plan step is the first word of the tier name followed by
    " logs": what follows the first space of the name is dropped, a name
    without a space is kept whole, and the word kept has no space. *)
Theorem format_logs_first_word w rest n :
  has_space w = false ->
  format_logs (String.append w (String " " rest)) n
  = [(String.append w " logs", n)] /\
  format_logs w n = [(String.append w " logs", n)] /\
  (forall s, has_space (split_first s) = false).
Proof.
  intro Hw. unfold format_logs.
  rewrite (split_first_word w rest Hw), (split_first_whole w Hw).
  repeat split. apply split_first_no_space.
Qed.

End FormatLogsMore.

(** * More on the shell *)

Section ShellMore.

Local Open Scope string_scope.
Local Open Scope Z_scope.

Variable levels : LevelTable.
Variable leagues_multipliers : MultiplierTable.
Variable base_birdhouses : TierTable.
Variable py_int : string -> result Z.

Lemma main_raises fuel w e w1 :
  get_inputs levels py_int w = (Raise e, w1) ->
  main levels leagues_multipliers base_birdhouses py_int fuel w
  = Some (Raise e, w1).
Proof.
  intro Hin. unfold main, main_setup, io_bind. now rewrite Hin.
Qed.

(** Experience below the level-5 threshold: [get_inputs] prints "You need
    at least 5 Hunter to make a birdhouse." and gives up without asking for
    the target, and [main] plans nothing. *)
Theorem below_minimum_aborts w text more experience minimum :
  pending w = text :: more ->
  py_int text = Ok experience ->
  level_of levels 5 = Some minimum -> experience < minimum ->
  get_inputs levels py_int w
  = (Ok None,
     mk_world more
       (shown w
        ++ [Prompt "What is your current Hunter xp? (Example: 2224614) ";
            Print "You need at least 5 Hunter to make a birdhouse."])%list) /\
  forall fuel,
  exists r w',
    main levels leagues_multipliers base_birdhouses py_int fuel w = Some (r, w')
    /\ forall plan, r <> Ok (Some plan).
Proof.
  intros Hw Hxp Hmin Hlt.
  assert (Hin : get_inputs levels py_int w
                = (Ok None,
                   mk_world more
                     (shown w
                      ++ [Prompt "What is your current Hunter xp? (Example: 2224614) ";
                          Print "You need at least 5 Hunter to make a birdhouse."])%list)).
  { destruct w as [lines out]. simpl in Hw. subst lines.
    unfold level_of in Hmin.
    unfold get_inputs, io_bind, input, lift, print, io_ret, show, getitem.
    simpl. rewrite Hxp, Hmin. destruct (Z.ltb_spec experience minimum); [|lia].
    simpl. now rewrite <- app_assoc. }
  split; [exact Hin|]. intro fuel.
  exact (main_without_inputs levels leagues_multipliers base_birdhouses py_int
           fuel _ _ Hin).
Qed.

(** A line that [int] rejects is not asked for again: the exception leaves
    [get_inputs] and [main], for the experience as for the target level, and
    nothing but the prompts was shown. *)
Theorem unparsable_input_raises w text more e fuel :
  pending w = text :: more ->
  (py_int text = Raise e ->
   main levels leagues_multipliers base_birdhouses py_int fuel w
   = Some (Raise e,
           mk_world more
             (shown w
              ++ [Prompt "What is your current Hunter xp? (Example: 2224614) "])%list))
  /\
  (forall experience minimum text' more',
      py_int text = Ok experience ->
      level_of levels 5 = Some minimum -> minimum <= experience ->
      more = text' :: more' -> py_int text' = Raise e ->
      main levels leagues_multipliers base_birdhouses py_int fuel w
      = Some (Raise e,
              mk_world more'
                (shown w
                 ++ [Prompt "What is your current Hunter xp? (Example: 2224614) ";
                     Prompt "What is your target Hunter level? (Example: 99) "])%list)).
Proof.
  intro Hw. destruct w as [lines out]. simpl in Hw. subst lines. split.
  - intro Hxp. apply main_raises.
    unfold get_inputs, io_bind, input, lift. simpl. now rewrite Hxp.
  - intros experience minimum text' more' Hxp Hmin Hge -> Htarget.
    apply main_raises. unfold level_of in Hmin.
    unfold get_inputs, io_bind, input, lift, getitem. simpl.
    rewrite Hxp, Hmin. destruct (Z.ltb_spec experience minimum); [lia|].
    simpl. rewrite Htarget. now rewrite <- app_assoc.
Qed.

(** A target level the level table does not have ends the session with
    [KeyError]. *)
Theorem unknown_target_raises w text text' more experience target_level
        minimum fuel :
  pending w = text :: text' :: more ->
  py_int text = Ok experience -> py_int text' = Ok target_level ->
  level_of levels 5 = Some minimum -> minimum <= experience ->
  level_of levels target_level = None ->
  main levels leagues_multipliers base_birdhouses py_int fuel w
  = Some (Raise KeyError,
          mk_world more
            (shown w
             ++ [Prompt "What is your current Hunter xp? (Example: 2224614) ";
                 Prompt "What is your target Hunter level? (Example: 99) "])%list).
Proof.
  intros Hw Hxp Htarget Hmin Hge Hnone.
  destruct w as [lines out]. simpl in Hw. subst lines.
  apply main_raises. unfold level_of in Hmin, Hnone.
  unfold get_inputs, io_bind, input, lift, getitem. simpl.
  rewrite Hxp, Hmin. destruct (Z.ltb_spec experience minimum); [lia|].
  simpl. rewrite Htarget, Hnone. now rewrite <- app_assoc.
Qed.

(** What [get_inputs] accepts: two lines were read and both parsed, the
    experience is at least the level-5 threshold and at most the threshold of
    the target level, which is tabulated; nothing but the two prompts was
    shown.  With an ascending level table the target level is then 5 at
    least, so [main] never takes an accepted target for "no input". *)
Theorem get_inputs_accepts w experience target_level w' :
  get_inputs levels py_int w = (Ok (Some (experience, target_level)), w') ->
  exists text text' more minimum target_xp,
    pending w = text :: text' :: more /\
    py_int text = Ok experience /\ py_int text' = Ok target_level /\
    level_of levels 5 = Some minimum /\ minimum <= experience /\
    level_of levels target_level = Some target_xp /\
    experience <= target_xp /\
    w' = mk_world more
           (shown w
            ++ [Prompt "What is your current Hunter xp? (Example: 2224614) ";
                Prompt "What is your target Hunter level? (Example: 99) "])%list /\
    (levels_ascending levels = true -> 5 <= target_level).
Proof.
  destruct w as [lines out].
  unfold get_inputs, io_bind, input, lift, print, io_ret, show. simpl.
  destruct lines as [|text lines]; [discriminate|].
  destruct (py_int text) as [x|] eqn:Hxp; [|discriminate].
  unfold getitem at 1.
  destruct (get Z.eqb levels 5) as [minimum|] eqn:Hmin; [|discriminate].
  destruct (Z.ltb_spec x minimum) as [|Hge]; [discriminate|]. simpl.
  destruct lines as [|text' more]; [discriminate|].
  destruct (py_int text') as [t|] eqn:Htarget; [|discriminate].
  unfold getitem.
  destruct (get Z.eqb levels t) as [target_xp|] eqn:Ht; [|discriminate].
  destruct (Z.gtb_spec x target_xp) as [|Hle]; [discriminate|].
  intros [= -> -> <-].
  exists text, text', more, minimum, target_xp.
  repeat split; try assumption; try lia.
  - now rewrite <- app_assoc.
  - intro Hasc. destruct (Z_le_gt_dec 5 target_level) as [|Hlow]; [assumption|].
    apply level_of_in in Hmin, Ht.
    pose proof (ascending_in_mono levels _ _ _ _ Hasc Ht Hmin ltac:(lia)). lia.
Qed.

End ShellMore.

(** * The relic tier prompt *)

Section RelicTier.

Local Open Scope string_scope.
Local Open Scope Z_scope.

Variable py_int : string -> result Z.

Lemma get_relic_multiplier_on_sound lines : forall out tier w',
  get_relic_multiplier_on py_int lines out = (Ok tier, w') ->
  1 <= tier <= 7 /\
  exists skipped text more,
    lines = (skipped ++ text :: more)%list /\
    Forall (rejected_tier py_int) skipped /\
    py_int text = Ok tier /\
    w' = mk_world more
           (out ++ flat_map (fun _ => rejection) skipped
            ++ [Prompt "What tier have you unlocked? (1-7) "])%list.
Proof.
  induction lines as [|line lines IH]; intros out tier w'; simpl;
    [discriminate|].
  destruct (py_int line) as [z|] eqn:Hz; [|discriminate].
  destruct (Z.gtb_spec 1 z) as [Hlow|Hge1]; simpl.
  - intro H. destruct (IH _ _ _ H) as (Hr & skipped & text & more & -> & Hs & Ht & ->).
    split; [exact Hr|]. exists (line :: skipped), text, more.
    repeat split; try assumption.
    + constructor; [|exact Hs]. exists z. split; [exact Hz | lia].
    + simpl. now rewrite <- !app_assoc.
  - destruct (Z.gtb_spec z 7) as [Hhigh|Hle7].
    + intro H.
      destruct (IH _ _ _ H) as (Hr & skipped & text & more & -> & Hs & Ht & ->).
      split; [exact Hr|]. exists (line :: skipped), text, more.
      repeat split; try assumption.
      * constructor; [|exact Hs]. exists z. split; [exact Hz | lia].
      * simpl. now rewrite <- !app_assoc.
    + intros [= <- <-]. split; [lia|]. exists [], line, lines.
      repeat split; [constructor | exact Hz].
Qed.

(** [get_relic_multiplier] only ever returns a tier from 1 to 7: the first
    line that parses to one, after lines that parsed to integers out of range,
    each of which was answered with "Please enter an integer between 1 and
    7." and a new prompt. *)
Theorem get_relic_multiplier_sound w tier w' :
  get_relic_multiplier py_int w = (Ok tier, w') ->
  1 <= tier <= 7 /\
  exists skipped text more,
    pending w = (skipped ++ text :: more)%list /\
    Forall (rejected_tier py_int) skipped /\
    py_int text = Ok tier /\
    pending w' = more /\
    shown w'
    = (shown w ++ flat_map (fun _ => rejection) skipped
       ++ [Prompt "What tier have you unlocked? (1-7) "])%list.
Proof.
  unfold get_relic_multiplier. intro H.
  destruct (get_relic_multiplier_on_sound _ _ _ _ H)
    as (Hr & skipped & text & more & Hl & Hs & Ht & ->).
  split; [exact Hr|]. exists skipped, text, more. now repeat split.
Qed.

(** When every line left is an integer out of range, the prompt is repeated
    until the input runs out, and [get_relic_multiplier] ends in [EOFError]. *)
Theorem get_relic_multiplier_runs_out w :
  Forall (rejected_tier py_int) (pending w) ->
  get_relic_multiplier py_int w
  = (Raise EOFError,
     mk_world []
       (shown w ++ flat_map (fun _ => rejection) (pending w)
        ++ [Prompt "What tier have you unlocked? (1-7) "])%list).
Proof.
  unfold get_relic_multiplier. generalize (shown w) as out.
  induction (pending w) as [|line lines IH]; intros out Hall; simpl.
  - reflexivity.
  - inversion Hall as [|? ? (z & Hz & Hout) Hrest]; subst.
    rewrite Hz.
    assert (Hrej : (1 >? z) || (z >? 7) = true).
    { apply orb_true_iff.
      destruct Hout; [left | right]; apply Z.gtb_lt; lia. }
    rewrite Hrej, (IH _ Hrest). now rewrite <- !app_assoc.
Qed.

End RelicTier.

(** * The whole session *)

Section Session.

Local Open Scope string_scope.
Local Open Scope Z_scope.

Variable levels : LevelTable.
Variable leagues_multipliers : MultiplierTable.
Variable base_birdhouses : TierTable.
Variable py_int : string -> result Z.

Hypothesis ascending : levels_ascending levels = true.

(** On a table fit for planning, whose first tier unlocks at level 5, the
    planner returns a plan from the level-5 threshold on. *)
Lemma planning_succeeds birdhouses first rest minimum x target_level target_xp :
  NoDup (keys birdhouses) ->
  birdhouses = first :: rest -> unlock_of first = Some 5 ->
  Forall has_unlock birdhouses -> Forall positive_yield birdhouses ->
  level_of levels 5 = Some minimum -> minimum <= x ->
  level_of levels target_level = Some target_xp ->
  exists plan k,
    List.length plan = k /\
    (forall fuel, (k < fuel)%nat ->
        calc_trips_to_target levels fuel x target_level birdhouses
        = Some (Ok plan)) /\
    (forall fuel, (fuel <= k)%nat ->
        calc_trips_to_target levels fuel x target_level birdhouses = None).
Proof.
  intros Hnd Hbh Hu Hunlock Hyield Hmin Hx Ht.
  destruct (check_level_total levels x _ _ Ht) as [l0 Hl0].
  destruct (while_loop_runs levels target_level birdhouses ascending Hnd
              first rest 5 minimum Hbh Hu Hmin Hunlock Hyield target_xp Ht
              _ (mk_state x l0 []) Hl0 Hx (Nat.le_refl _))
    as (k & st' & _ & Hrun & Hshort & Hlen).
  exists (logs_to_target st'), k. split; [exact Hlen|].
  split; intros fuel Hf; unfold calc_trips_to_target, initial_state;
    rewrite Hl0; cbn [bind].
  - now rewrite (proj1 (Hrun fuel Hf)).
  - now rewrite (Hshort fuel Hf).
Qed.

Lemma main_after_setup w inputs_xp target_level birdhouses w2 fuel :
  main_setup levels leagues_multipliers base_birdhouses py_int w
  = (Ok (Some (inputs_xp, target_level), birdhouses), w2) ->
  target_level <> 0 ->
  main levels leagues_multipliers base_birdhouses py_int fuel w
  = match calc_trips_to_target levels fuel inputs_xp target_level birdhouses
    with
    | None => None
    | Some (Raise e) => Some (Raise e, w2)
    | Some (Ok plan) =>
        Some (Ok (Some plan),
              mk_world (pending w2)
                (shown w2
                 ++ Print (newline ++ "Starting from "
                           ++ str_of_int inputs_xp
                           ++ "xp, you will need:" ++ newline)
                 :: flat_map show_items plan)%list)
    end.
Proof.
  intros Hsetup Hnz. unfold main. rewrite Hsetup.
  destruct (Z.eqb_spec target_level 0); [contradiction|]. reflexivity.
Qed.

Hypothesis unique_keys : NoDup (keys base_birdhouses).
Hypothesis unlock_levels : Forall has_unlock base_birdhouses.

Variable first : string * Tier.
Variable rest : TierTable.
Hypothesis first_tier : base_birdhouses = first :: rest.
Hypothesis first_unlock : unlock_of first = Some 5.

(** A whole session without Leagues, within the range where the source's
    float division is exact (thresholds from 0 to below 2^53, trip yields
    below 2^53): experience and target level parse and pass the checks of
    [get_inputs], the third line is not "1".  Then [main] computes the plan of
    [calc_trips_to_target] on the base table and shows the three prompts, the
    header and one line per plan step; the loop takes as many iterations as
    the plan has steps, and every division it makes has operands in that
    range. *)
Theorem session_displays_plan w text text' answer more experience
        target_level minimum target_xp :
  pending w = text :: text' :: answer :: more ->
  py_int text = Ok experience -> py_int text' = Ok target_level ->
  level_of levels 5 = Some minimum -> minimum <= experience ->
  level_of levels target_level = Some target_xp ->
  experience <= target_xp ->
  answer <> "1" ->
  thresholds_in_range levels -> Forall yield_in_range base_birdhouses ->
  exists plan,
    (forall fuel, (List.length plan < fuel)%nat ->
        calc_trips_to_target levels fuel experience target_level
          base_birdhouses = Some (Ok plan) /\
        main levels leagues_multipliers base_birdhouses py_int fuel w
        = Some (Ok (Some plan),
                mk_world more
                  (shown w
                   ++ [Prompt "What is your current Hunter xp? (Example: 2224614) ";
                       Prompt "What is your target Hunter level? (Example: 99) ";
                       Prompt "Type 1 if this is Leagues. ";
                       Print (newline ++ "Starting from "
                              ++ str_of_int experience
                              ++ "xp, you will need:" ++ newline)]
                   ++ flat_map show_items plan)%list)) /\
    (forall fuel, (fuel <= List.length plan)%nat ->
        main levels leagues_multipliers base_birdhouses py_int fuel w = None) /\
    (forall fuel st0,
        initial_state levels experience = Ok st0 ->
        divisions_exact levels fuel target_level base_birdhouses st0).
Proof.
  intros Hw Hxp Htarget Hmin Hge Ht Hle Hanswer Hlevels Hyields.
  pose proof (get_inputs_parsed levels py_int w _ _ _ _ _ _ _ Hw Hxp Htarget
                Hmin Hge Ht) as Hin.
  destruct (Z.gtb_spec experience target_xp) as [|_]; [lia|].
  assert (Hsetup :
            main_setup levels leagues_multipliers base_birdhouses py_int w
            = (Ok (Some (experience, target_level), base_birdhouses),
               mk_world more
                 (shown w
                  ++ [Prompt "What is your current Hunter xp? (Example: 2224614) ";
                      Prompt "What is your target Hunter level? (Example: 99) ";
                      Prompt "Type 1 if this is Leagues. "])%list)).
  { unfold main_setup, io_bind. rewrite Hin.
    unfold check_leagues, io_bind, input, io_ret. simpl.
    apply String.eqb_neq in Hanswer. rewrite Hanswer. simpl.
    now rewrite <- app_assoc. }
  assert (Hnz : target_level <> 0).
  { apply level_of_in in Hmin, Ht. intros ->.
    pose proof (ascending_in_mono levels _ _ _ _ ascending Ht Hmin ltac:(lia)).
    lia. }
  destruct (planning_succeeds base_birdhouses first rest minimum experience
              target_level target_xp unique_keys first_tier first_unlock
              unlock_levels (yields_in_range_positive _ Hyields) Hmin Hge Ht)
    as (plan & k & Hlen & Hrun & Hshort).
  subst k. exists plan. split; [|split]; try (intros fuel Hf;
    rewrite (main_after_setup _ _ _ _ _ fuel Hsetup Hnz)).
  - split; [exact (Hrun fuel Hf)|]. rewrite (Hrun fuel Hf). simpl.
    now rewrite <- app_assoc.
  - now rewrite (Hshort fuel Hf).
  - intros fuel st0 Hinit.
    destruct (initial_state_resolved _ _ _ Hinit) as [Hx0 Hres].
    pose proof (threshold_in_range levels _ _ Hlevels Hmin).
    apply (loop_divisions_exact levels target_level base_birdhouses ascending
             unique_keys fuel st0 Hlevels Hyields Hres). lia.
Qed.

End Session.

Section LeaguesSession.

Local Open Scope string_scope.
Local Open Scope Z_scope.

Variable levels : LevelTable.
Variable leagues_multipliers : MultiplierTable.
Variable base_birdhouses : TierTable.
Variable py_int : string -> result Z.

Hypothesis ascending : levels_ascending levels = true.
Hypothesis unique_keys : NoDup (keys base_birdhouses).
Hypothesis unlock_levels : Forall has_unlock base_birdhouses.

Variable first : string * Tier.
Variable rest : TierTable.
Hypothesis first_tier : base_birdhouses = first :: rest.
Hypothesis first_unlock : unlock_of first = Some 5.

(** A whole session in Leagues mode, within the range where the source's
    float division is exact (thresholds from 0 to below 2^53, multiplied trip
    yields below 2^53): the third line is "1", the fourth parses to a relic
    tier from 1 to 7 whose multiplier is positive.  Then [main] announces the
    multiplier and computes and shows the plan of [calc_trips_to_target] on
    the table with the yields multiplied; every division of the loop has
    operands in that range. *)
Theorem leagues_session_displays_plan w text text' tier_text more experience
        target_level minimum target_xp relic_tier multiplier :
  pending w = text :: text' :: "1" :: tier_text :: more ->
  py_int text = Ok experience -> py_int text' = Ok target_level ->
  level_of levels 5 = Some minimum -> minimum <= experience ->
  level_of levels target_level = Some target_xp ->
  experience <= target_xp ->
  py_int tier_text = Ok relic_tier -> 1 <= relic_tier <= 7 ->
  get Z.eqb leagues_multipliers relic_tier = Some multiplier ->
  0 < multiplier ->
  thresholds_in_range levels ->
  Forall yield_in_range (scale_birdhouses multiplier base_birdhouses) ->
  exists plan,
    (forall fuel, (List.length plan < fuel)%nat ->
        calc_trips_to_target levels fuel experience target_level
          (scale_birdhouses multiplier base_birdhouses) = Some (Ok plan) /\
        main levels leagues_multipliers base_birdhouses py_int fuel w
        = Some (Ok (Some plan),
                mk_world more
                  (shown w
                   ++ [Prompt "What is your current Hunter xp? (Example: 2224614) ";
                       Prompt "What is your target Hunter level? (Example: 99) ";
                       Prompt "Type 1 if this is Leagues. ";
                       Prompt "What tier have you unlocked? (1-7) ";
                       Print ("Your XP modifier is " ++ str_of_int multiplier);
                       Print (newline ++ "Starting from "
                              ++ str_of_int experience
                              ++ "xp, you will need:" ++ newline)]
                   ++ flat_map show_items plan)%list)) /\
    (forall fuel, (fuel <= List.length plan)%nat ->
        main levels leagues_multipliers base_birdhouses py_int fuel w = None) /\
    (forall fuel st0,
        initial_state levels experience = Ok st0 ->
        divisions_exact levels fuel target_level
          (scale_birdhouses multiplier base_birdhouses) st0).
Proof.
  intros Hw Hxp Htarget Hmin Hge Ht Hle Htier Hrange Hmult Hpos Hlevels
         Hyields.
  pose proof (get_inputs_parsed levels py_int w _ _ _ _ _ _ _ Hw Hxp Htarget
                Hmin Hge Ht) as Hin.
  destruct (Z.gtb_spec experience target_xp) as [|_]; [lia|].
  assert (Hsetup :
            main_setup levels leagues_multipliers base_birdhouses py_int w
            = (Ok (Some (experience, target_level),
                   scale_birdhouses multiplier base_birdhouses),
               mk_world more
                 (shown w
                  ++ [Prompt "What is your current Hunter xp? (Example: 2224614) ";
                      Prompt "What is your target Hunter level? (Example: 99) ";
                      Prompt "Type 1 if this is Leagues. ";
                      Prompt "What tier have you unlocked? (1-7) ";
                      Print ("Your XP modifier is " ++ str_of_int multiplier)])%list)).
  { unfold main_setup, io_bind. rewrite Hin.
    unfold check_leagues, io_bind, input, io_ret. cbn [pending shown].
    cbn [String.eqb Ascii.eqb Bool.eqb].
    unfold get_relic_multiplier. cbn [pending shown get_relic_multiplier_on].
    rewrite Htier.
    assert (Hok : (1 >? relic_tier) || (relic_tier >? 7) = false).
    { apply orb_false_intro; rewrite Z.gtb_ltb; apply Z.ltb_ge; lia. }
    rewrite Hok. unfold lift, getitem. rewrite Hmult.
    unfold print, show, effective_birdhouses. cbn [pending shown].
    now rewrite <- !app_assoc. }
  assert (Hnz : target_level <> 0).
  { apply level_of_in in Hmin, Ht. intros ->.
    pose proof (ascending_in_mono levels _ _ _ _ ascending Ht Hmin ltac:(lia)).
    lia. }
  assert (Hnd : NoDup (keys (scale_birdhouses multiplier base_birdhouses)))
    by now rewrite scale_birdhouses_keys.
  assert (Hbh : scale_birdhouses multiplier base_birdhouses
                = (fst first, scale_tier multiplier (snd first))
                  :: scale_birdhouses multiplier rest)
    by now rewrite first_tier.
  assert (Hu : unlock_of (fst first, scale_tier multiplier (snd first)) = Some 5)
    by now rewrite unlock_of_scaled.
  assert (Hunlock : Forall has_unlock
                      (scale_birdhouses multiplier base_birdhouses)).
  { apply (scale_birdhouses_forall has_unlock); [|exact unlock_levels].
    intros entry [u Hu']. exists u. now rewrite unlock_of_scaled. }
  pose proof (yields_in_range_positive _ Hyields) as Hyield.
  destruct (planning_succeeds levels ascending _ _ _ minimum experience
              target_level target_xp Hnd Hbh Hu Hunlock Hyield Hmin Hge Ht)
    as (plan & k & Hlen & Hrun & Hshort).
  subst k. exists plan. split; [|split]; try (intros fuel Hf;
    rewrite (main_after_setup _ _ _ _ _ _ _ _ _ fuel Hsetup Hnz)).
  - split; [exact (Hrun fuel Hf)|]. rewrite (Hrun fuel Hf). simpl.
    now rewrite <- app_assoc.
  - now rewrite (Hshort fuel Hf).
  - intros fuel st0 Hinit.
    destruct (initial_state_resolved _ _ _ Hinit) as [Hx0 Hres].
    pose proof (threshold_in_range levels _ _ Hlevels Hmin).
    apply (loop_divisions_exact levels target_level _ ascending
             Hnd fuel st0 Hlevels Hyields Hres). lia.
Qed.

End LeaguesSession.

(** * The order of the plan *)

Section PlanOrder.

Lemma tier_scan_walked items : forall c lvl cur next,
  check_birdhouse_tier_scan c items lvl = Ok (cur, next) ->
  cur = last (firstn (tiers_walked lvl items) (keys items)) c /\
  next = nth_error (keys items) (tiers_walked lvl items).
Proof.
  induction items as [|[tier tier_level] rest IH]; intros c lvl cur next.
  - simpl. intros [= <- <-]. now split.
  - cbn [check_birdhouse_tier_scan tiers_walked].
    destruct (hunter_level tier_level) as [u|] eqn:Hu; cbn [bind];
      [|discriminate].
    apply (hunter_level_unlock (tier, tier_level)) in Hu. rewrite Hu.
    destruct (lvl <? u).
    + intros [= <- <-]. now split.
    + intro H. destruct (IH _ _ _ _ H) as [Hc Hn]. split.
      * unfold keys in *. cbn [map firstn fst]. now rewrite last_cons.
      * exact Hn.
Qed.

Lemma tiers_walked_bound lvl items :
  (tiers_walked lvl items <= List.length items)%nat.
Proof.
  induction items as [|entry rest IH]; simpl; [lia|].
  destruct (unlock_of entry) as [u|]; [|lia].
  destruct (lvl <? u); lia.
Qed.

Lemma last_firstn {A : Type} (ks : list A) : forall w c,
  (1 <= w <= List.length ks)%nat ->
  last (firstn w ks) c = nth (w - 1) ks c.
Proof.
  induction ks as [|a ks IH]; intros w c Hw; simpl in Hw; [lia|].
  destruct w as [|w]; [lia|]. cbn [firstn]. rewrite last_cons.
  destruct w as [|w]; [reflexivity|].
  rewrite IH by lia. simpl. rewrite Nat.sub_0_r.
  apply nth_indep. lia.
Qed.

(** Once the tier the scan stopped at is unlocked, the scan walks
    further. *)
Lemma tiers_walked_next items : forall lvl lvl' entry,
  lvl <= lvl' ->
  nth_error items (tiers_walked lvl items) = Some entry ->
  unlocked_at lvl' entry ->
  (tiers_walked lvl items < tiers_walked lvl' items)%nat.
Proof.
  induction items as [|e rest IH]; intros lvl lvl' entry Hle Hnth Hunl.
  - discriminate.
  - revert Hnth. cbn [tiers_walked].
    destruct (unlock_of e) as [u|] eqn:Hu.
    + destruct (Z.ltb_spec lvl u) as [Hlt|Hge].
      * intros [= <-]. destruct Hunl as (u' & Hu' & Hle').
        rewrite Hu in Hu'. injection Hu' as <-.
        destruct (Z.ltb_spec lvl' u); lia.
      * destruct (Z.ltb_spec lvl' u); [lia|]. intro Hnth.
        pose proof (IH lvl lvl' entry Hle Hnth Hunl). lia.
    + intros [= <-]. destruct Hunl as (u' & Hu' & _). congruence.
Qed.

Lemma nodup_nth_sorted {A : Type} (ks : list A) d : forall ps,
  NoDup ks -> StronglySorted lt ps ->
  Forall (fun i => (i < List.length ks)%nat) ps ->
  NoDup (map (fun i => nth i ks d) ps).
Proof.
  intros ps Hnd. induction ps as [|p ps IH]; intros Hs Hb; simpl;
    [constructor|].
  inversion Hs as [|? ? Hs' Hlt]; subst. inversion Hb as [|? ? Hp Hb']; subst.
  constructor; [|now apply IH].
  intro Hin. apply in_map_iff in Hin. destruct Hin as (q & Heq & Hq).
  rewrite Forall_forall in Hlt, Hb'.
  pose proof (Hlt _ Hq). pose proof (Hb' _ Hq).
  pose proof (proj1 (NoDup_nth ks d) Hnd q p ltac:(lia) Hp Heq). lia.
Qed.

Variable levels : LevelTable.
Variable target_level : Z.
Variable birdhouses : TierTable.

Hypothesis ascending : levels_ascending levels = true.
Hypothesis unique_keys : NoDup (keys birdhouses).
Hypothesis positive_yields : Forall positive_yield birdhouses.

Variable first : string * Tier.
Variable rest : TierTable.
Variable u0 e0 : Z.
Hypothesis first_tier : birdhouses = first :: rest.
Hypothesis first_unlock : unlock_of first = Some u0.
Hypothesis first_threshold : level_of levels u0 = Some e0.

Lemma on_track_step st it st' :
  on_track levels e0 st -> loop_cond target_level st = true ->
  loop_body levels target_level birdhouses st = Ok (it, st') ->
  on_track levels e0 st'.
Proof.
  intros [Hres Hge] Hc Hb. split.
  - exact (loop_body_resolved _ _ _ _ _ _ Hb).
  - pose proof (loop_body_keeps_xp levels target_level birdhouses ascending
                  unique_keys _ _ _ Hres Hc Hb). lia.
Qed.

Lemma on_track_walked st :
  on_track levels e0 st ->
  (1 <= tiers_walked (current_level st) birdhouses)%nat.
Proof.
  intros [Hres Hge].
  destruct (check_level_lower levels ascending _ _ _ first_threshold Hge)
    as (l & Hl & Hle).
  unfold level_resolved in Hres. rewrite Hres in Hl. injection Hl as <-.
  rewrite first_tier. cbn [tiers_walked]. rewrite first_unlock.
  destruct (Z.ltb_spec (current_level st) u0); lia.
Qed.

(** The current tier of an iteration is the tier at the state's position. *)
Lemma current_tier_position st it st' :
  on_track levels e0 st ->
  loop_body levels target_level birdhouses st = Ok (it, st') ->
  current_tier it
  = nth (current_position birdhouses st) (keys birdhouses) "None"%string.
Proof.
  intros Htrack Hb.
  destruct (loop_body_inv _ _ _ _ _ _ Hb) as (_ & _ & Htiers & _).
  destruct (tier_scan_walked _ _ _ _ _ Htiers) as [Hc _].
  rewrite Hc. unfold current_position. rewrite <- Nat.sub_1_r.
  apply last_firstn. split; [now apply on_track_walked|].
  unfold keys. rewrite length_map. apply tiers_walked_bound.
Qed.

(** An iteration that leaves the target still ahead has unlocked the next
    tier: the next iteration works from a later position. *)
Lemma position_advances st it st' :
  on_track levels e0 st -> loop_cond target_level st = true ->
  loop_body levels target_level birdhouses st = Ok (it, st') ->
  loop_cond target_level st' = true ->
  (current_position birdhouses st < current_position birdhouses st')%nat.
Proof.
  intros Htrack Hc Hb Hc'. pose proof Htrack as [Hres Hge].
  pose proof (on_track_walked _ Htrack) as Hpos.
  pose proof (loop_body_resolved _ _ _ _ _ _ Hb) as Hres'.
  destruct (loop_body_advances levels target_level birdhouses ascending
              unique_keys _ _ _ positive_yields Hres Hc Hb)
    as (_ & Hreach & Hup).
  unfold loop_cond in Hc, Hc'. apply Z.ltb_lt in Hc, Hc'.
  assert (Hnot_target :
            level_of levels target_level <> Some (next_benchmark it)).
  { intro Ht.
    destruct (check_level_lower levels ascending _ _ _ Ht Hreach)
      as (l & Hl & Hle).
    unfold level_resolved in Hres'. rewrite Hres' in Hl. injection Hl as <-.
    lia. }
  destruct (loop_body_inv _ _ _ _ _ _ Hb) as (_ & _ & Htiers & Hbench & _).
  destruct (tier_scan_walked _ _ _ _ _ Htiers) as [_ Hn].
  revert Hbench. unfold next_benchmark_of.
  destruct (next_tier it) as [nt|];
    [|intro Hbench; apply getitem_ok in Hbench; contradiction].
  symmetry in Hn. unfold keys in Hn. rewrite nth_error_map in Hn.
  destruct (nth_error birdhouses (tiers_walked (current_level st) birdhouses))
    as [entry|] eqn:Hnth; [|discriminate].
  injection Hn as Hname.
  pose proof (nodup_tier_of _ _ unique_keys (nth_error_In _ _ Hnth)) as Hget.
  rewrite Hname in Hget. apply getitem_ok in Hget. rewrite Hget. cbn [bind].
  destruct (hunter_level (snd entry)) as [u|] eqn:Hu; cbn [bind];
    [|discriminate].
  apply hunter_level_unlock in Hu.
  destruct (Z.ltb_spec target_level u) as [Habove|Hbelow];
    intro Hbench; apply getitem_ok in Hbench; [contradiction|].
  destruct (check_level_lower levels ascending _ _ _ Hbench Hreach)
    as (l & Hl & Hle).
  unfold level_resolved in Hres'. rewrite Hres' in Hl. injection Hl as <-.
  assert (Hlocked : current_level st < u).
  { destruct (tier_scan_split _ _ _ _ _ Htiers)
      as (pre & post & Heq & _ & _ & Hhead & Hlock).
    destruct post as [|e post']; [discriminate|].
    destruct (Hlock e eq_refl) as (ue & Hue & Hlt).
    simpl in Hhead. injection Hhead as Hhead.
    assert (Hine : In e birdhouses)
      by (rewrite Heq; apply in_or_app; right; now left).
    pose proof (nodup_tier_of _ _ unique_keys Hine) as Hget'.
    rewrite <- Hhead in Hget'. apply getitem_ok in Hget'.
    rewrite Hget in Hget'. injection Hget' as Hsnd.
    unfold unlock_of in Hu, Hue. rewrite Hsnd, Hue in Hu.
    injection Hu as <-. exact Hlt. }
  assert (Hlevels : current_level st <= current_level st') by lia.
  pose proof (tiers_walked_next birdhouses _ _ entry Hlevels Hnth
                (ex_intro _ u (conj Hu Hle))) as Hwalk.
  unfold current_position. lia.
Qed.

Lemma positions_sorted : forall fuel st,
  on_track levels e0 st ->
  Sorted lt
    (map (fun r => current_position birdhouses (fst (fst r)))
       (loop_iterations levels fuel target_level birdhouses st)).
Proof.
  induction fuel as [|fuel IH]; intros st Htrack; simpl; [constructor|].
  destruct (loop_cond target_level st) eqn:Hc; [|constructor].
  destruct (loop_body levels target_level birdhouses st) as [[it st']|] eqn:Hb;
    [|constructor].
  pose proof (on_track_step _ _ _ Htrack Hc Hb) as Htrack'.
  simpl. constructor; [now apply IH|].
  destruct fuel as [|fuel']; simpl; [constructor|].
  destruct (loop_cond target_level st') eqn:Hc'; [|constructor].
  destruct (loop_body levels target_level birdhouses st') as [[it' st'']|];
    [|constructor].
  simpl. constructor. exact (position_advances _ _ _ Htrack Hc Hb Hc').
Qed.

(** From the first tier's unlock threshold on, with positive yields and
    within the range where the source's float division is exact (thresholds
    from 0 to below 2^53, trip yields below 2^53), every division of the loop
    has operands in that range and the plan follows the order of the tier
    table: the current tiers of the iterations sit at strictly increasing
    positions of the table, so no tier is planned twice. *)
Theorem plan_follows_tier_order fuel x st0 :
  thresholds_in_range levels -> Forall yield_in_range birdhouses ->
  e0 <= x -> initial_state levels x = Ok st0 ->
  let its := loop_iterations levels fuel target_level birdhouses st0 in
  let positions :=
    map (fun r => current_position birdhouses (fst (fst r))) its in
  divisions_exact levels fuel target_level birdhouses st0 /\
  StronglySorted lt positions /\
  Forall (fun i => (i < List.length birdhouses)%nat) positions /\
  map (fun r => current_tier (snd (fst r))) its
  = map (fun i => nth i (keys birdhouses) "None"%string) positions /\
  NoDup (map (fun r => current_tier (snd (fst r))) its).
Proof.
  intros Hlevels Hyields Hx Hinit its positions.
  destruct (initial_state_resolved _ _ _ Hinit) as [Hx0 Hres].
  assert (Hexact : divisions_exact levels fuel target_level birdhouses st0).
  { pose proof (threshold_in_range levels _ _ Hlevels first_threshold).
    apply (loop_divisions_exact levels target_level birdhouses ascending
             unique_keys fuel st0 Hlevels Hyields Hres). lia. }
  assert (Htrack : on_track levels e0 st0) by (split; [exact Hres | lia]).
  pose proof (loop_iterations_inv levels target_level birdhouses
                (on_track levels e0) on_track_step fuel st0 Htrack) as Hall.
  fold its in Hall.
  assert (Hsorted : StronglySorted lt positions).
  { apply Sorted_StronglySorted; [exact Nat.lt_trans|].
    now apply positions_sorted. }
  assert (Hbound : Forall (fun i => (i < List.length birdhouses)%nat) positions).
  { unfold positions. apply Forall_map. eapply Forall_impl; [|exact Hall].
    intros r (Ht & _ & _). unfold current_position.
    pose proof (on_track_walked _ Ht).
    pose proof (tiers_walked_bound (current_level (fst (fst r))) birdhouses).
    lia. }
  assert (Hnames : map (fun r => current_tier (snd (fst r))) its
                   = map (fun i => nth i (keys birdhouses) "None"%string)
                       positions).
  { unfold positions. rewrite map_map. apply map_ext_in.
    intros r Hr. rewrite Forall_forall in Hall.
    destruct (Hall _ Hr) as (Ht & _ & Hb).
    exact (current_tier_position _ _ _ Ht Hb). }
  split; [exact Hexact|].
  split; [exact Hsorted|]. split; [exact Hbound|]. split; [exact Hnames|].
  rewrite Hnames. apply nodup_nth_sorted; try assumption.
  unfold keys. now rewrite length_map.
Qed.

End PlanOrder.

(** * The further theorems on the sample tables *)

Section MoreOnTheSample.

Local Open Scope string_scope.
Local Open Scope Z_scope.

Lemma sample_barren_unique_keys : NoDup (keys Sample.barren).
Proof. repeat constructor; simpl; intuition discriminate. Qed.

Lemma sample_scaled_yields_in_range :
  Forall yield_in_range (scale_birdhouses 8 Sample.birdhouses).
Proof.
  constructor; [exists 2240; repeat split; unfold float_limit; lia|].
  constructor; [exists 3360; repeat split; unfold float_limit; lia|].
  constructor.
Qed.

Lemma check_level_monotone_witness :
  400 <= 2640 /\
  check_level Sample.levels 400 = Ok 5 /\
  check_level Sample.levels 2640 = Ok 15 /\ 5 <= 15.
Proof.
  split; [lia|]. split; [reflexivity|]. split; [reflexivity|].
  apply (check_level_monotone Sample.levels eq_refl 400 2640 5 15);
    [lia | reflexivity | reflexivity].
Defined.

Lemma check_level_range_witness :
  check_level Sample.levels (-3) = Ok 0 /\
  1 - 1 <= 0 <= 20 /\ (0 = 1 - 1 <-> -3 < 0).
Proof.
  split; [reflexivity|].
  apply (check_level_range Sample.levels eq_refl 1 0 (tl Sample.levels)
           (-3) 0 20); reflexivity.
Defined.

Lemma scale_birdhouses_keeps_invariants_witness :
  0 < 8 /\
  Forall positive_yield (scale_birdhouses 8 Sample.birdhouses) /\
  map unlock_of (scale_birdhouses 8 Sample.birdhouses)
  = map unlock_of Sample.birdhouses.
Proof.
  split; [lia|].
  destruct (scale_birdhouses_keeps_invariants 8 Sample.birdhouses ltac:(lia))
    as (_ & _ & Hyield & _ & Hunlock).
  split; [exact (Hyield sample_positive_yield) | exact Hunlock].
Defined.

Lemma calc_trips_to_next_benchmark_least_witness :
  calc_trips_to_next_benchmark Sample.levels 400 20 Sample.birdhouses
  = Ok (4, 16, 4880) /\
  exists name tier yield,
    tier_of Sample.birdhouses name = Some tier /\
    field tier "Hunter XP" = Some yield /\ 0 < yield /\
    float_exact (4470 - 400) (yield * 4) /\
    16 = 4 * 4 /\
    4880 = 400 + 4 * (yield * 4) /\
    4470 <= 4880 < 4470 + yield * 4 /\
    (400 < 4470 -> 1 <= 4) /\
    (4470 <= 400 -> 4 <= 0).
Proof.
  split; [reflexivity|].
  apply (calc_trips_to_next_benchmark_least Sample.levels 20 Sample.birdhouses
           400 4470 4 16 4880 sample_yields_in_range);
    try reflexivity; unfold float_limit; lia.
Defined.

Lemma loop_body_agrees_with_next_benchmark_witness :
  calc_trips_to_next_benchmark Sample.levels 2640 20 Sample.birdhouses
  = Ok (2, 8, 6000).
Proof.
  apply (loop_body_agrees_with_next_benchmark Sample.levels 20
           Sample.birdhouses (mk_state 2640 15 [])
           (mk_iteration "Oak birdhouse" None 4470 1680 2 3360 8)
           (mk_state 6000 20 [[("Oak logs", 8)]]));
    reflexivity.
Defined.

Lemma plan_reaches_target_witness :
  exists l0 st',
    check_level Sample.levels 400 = Ok l0 /\
    while_loop Sample.levels 3 20 Sample.birdhouses (mk_state 400 l0 [])
    = Some (Ok st') /\
    [[("Regular logs", 8)]; [("Oak logs", 8)]]
    = map step_of
        (loop_iterations Sample.levels 3 20 Sample.birdhouses
           (mk_state 400 l0 [])) /\
    current_xp st'
    = 400 + total_gain (loop_iterations Sample.levels 3 20 Sample.birdhouses
                          (mk_state 400 l0 [])) /\
    check_level Sample.levels (current_xp st') = Ok (current_level st') /\
    20 <= current_level st' /\
    (forall target_xp,
        level_of Sample.levels 20 = Some target_xp ->
        target_xp <= current_xp st').
Proof.
  apply (plan_reaches_target Sample.levels 20 Sample.birdhouses eq_refl 3 400).
  reflexivity.
Defined.

Lemma plan_empty_iff_reached_witness :
  ([[("Regular logs", 8)]; [("Oak logs", 8)]] = [] <-> 4470 <= 400) /\
  (@nil PlanStep = [] <-> 1154 <= 1154).
Proof.
  split.
  - apply (plan_empty_iff_reached Sample.levels 20 Sample.birdhouses eq_refl
             3 400); reflexivity.
  - apply (plan_empty_iff_reached Sample.levels 10 Sample.birdhouses eq_refl
             3 1154); reflexivity.
Defined.

Lemma every_iteration_least_witness :
  Forall (fun '(s, it, s') =>
            float_exact (next_benchmark it - current_xp s) (birdhouse_xp it) /\
            1 <= trips it /\
            logs_needed it = 4 * trips it /\
            current_xp s' = current_xp s + trips it * birdhouse_xp it /\
            current_xp s < next_benchmark it /\
            next_benchmark it <= current_xp s'
              < next_benchmark it + birdhouse_xp it)
         (loop_iterations Sample.levels 3 20 Sample.birdhouses
            (mk_state 400 5 [])).
Proof.
  apply (every_iteration_least Sample.levels 20 Sample.birdhouses eq_refl
           sample_unique_keys 3 400);
    [exact sample_thresholds_in_range | exact sample_yields_in_range
    | lia | reflexivity].
Defined.

Lemma plan_steps_shape_witness :
  Forall (fun step =>
            exists name n,
              In name (keys Sample.birdhouses) /\ 1 <= n /\
              step = [(String.append (split_first name) " logs", 4 * n)])
         [[("Regular logs", 8)]; [("Oak logs", 8)]].
Proof.
  apply (plan_steps_shape Sample.levels 20 Sample.birdhouses eq_refl
           sample_unique_keys sample_positive_yield 3 400).
  reflexivity.
Defined.

Lemma below_first_tier_raises_witness :
  check_level Sample.levels 100 = Ok 2 /\ 2 < 5 /\
  check_birdhouse_tier 2 Sample.birdhouses
  = Ok ("None", Some "Regular birdhouse") /\
  calc_trips_to_next_benchmark Sample.levels 100 10 Sample.birdhouses
  = Raise KeyError /\
  (2 < 10 ->
   calc_trips_to_target Sample.levels 1 100 10 Sample.birdhouses
   = Some (Raise KeyError)).
Proof.
  split; [reflexivity|]. split; [lia|].
  apply (below_first_tier_raises Sample.levels 10 Sample.birdhouses
           ("Regular birdhouse", Sample.regular)
           [("Oak birdhouse", Sample.oak)] 5 100 2 0);
    try reflexivity; lia.
Defined.

Lemma no_gain_never_returns_witness :
  xp_gain (mk_iteration "Regular birdhouse" None 1154 (-1120) 0 0 0) = 0 /\
  calc_trips_to_target Sample.levels 1000 400 10 Sample.draining = None.
Proof.
  split; [reflexivity|].
  exact (no_gain_never_returns Sample.levels 10 Sample.draining 400
           (mk_state 400 5 [])
           (mk_iteration "Regular birdhouse" None 1154 (-1120) 0 0 0)
           (mk_state 400 5 [[("Regular logs", 0)]])
           eq_refl eq_refl eq_refl eq_refl 1000%nat).
Defined.

Lemma zero_yield_raises_witness :
  388 <= 400 /\ 400 < 1154 /\
  calc_trips_to_target Sample.levels 1 400 10 Sample.barren
  = Some (Raise ZeroDivisionError).
Proof.
  split; [lia|]. split; [lia|].
  apply (zero_yield_raises Sample.levels 10 Sample.barren eq_refl
           sample_barren_unique_keys 5 388 1154 eq_refl eq_refl
           400 5 "Regular birdhouse" None
           [("Hunter Level", 5); ("Hunter XP", 0)] 0);
    try reflexivity; lia.
Defined.

Lemma format_logs_first_word_witness :
  has_space "Oak" = false /\
  format_logs "Oak birdhouse" 8 = [("Oak logs", 8)].
Proof.
  split; [reflexivity|].
  exact (proj1 (format_logs_first_word "Oak" "birdhouse" 8 eq_refl)).
Defined.

Lemma below_minimum_aborts_witness :
  level_of Sample.levels 5 = Some 388 /\ 50 < 388 /\
  get_inputs Sample.levels Sample.decimal_int Sample.below_minimum
  = (Ok None,
     mk_world ["10"]
       [Prompt "What is your current Hunter xp? (Example: 2224614) ";
        Print "You need at least 5 Hunter to make a birdhouse."]) /\
  forall fuel,
  exists r w',
    main Sample.levels Sample.multipliers Sample.birdhouses Sample.decimal_int
      fuel Sample.below_minimum = Some (r, w')
    /\ forall plan, r <> Ok (Some plan).
Proof.
  split; [reflexivity|]. split; [lia|].
  apply (below_minimum_aborts Sample.levels Sample.multipliers
           Sample.birdhouses Sample.decimal_int Sample.below_minimum
           "50" ["10"] 50 388);
    try reflexivity; lia.
Defined.

Lemma unparsable_input_raises_witness :
  Sample.decimal_int "4oo" = Raise ValueError /\
  main Sample.levels Sample.multipliers Sample.birdhouses Sample.decimal_int
    5 Sample.garbled
  = Some (Raise ValueError,
          mk_world ["10"]
            [Prompt "What is your current Hunter xp? (Example: 2224614) "]).
Proof.
  split; [reflexivity|].
  apply (proj1 (unparsable_input_raises Sample.levels Sample.multipliers
                  Sample.birdhouses Sample.decimal_int Sample.garbled
                  "4oo" ["10"] ValueError 5 eq_refl)).
  reflexivity.
Defined.

Lemma unknown_target_raises_witness :
  level_of Sample.levels 100 = None /\
  main Sample.levels Sample.multipliers Sample.birdhouses Sample.decimal_int
    5 Sample.unknown_target
  = Some (Raise KeyError,
          mk_world ["0"]
            [Prompt "What is your current Hunter xp? (Example: 2224614) ";
             Prompt "What is your target Hunter level? (Example: 99) "]).
Proof.
  split; [reflexivity|].
  apply (unknown_target_raises Sample.levels Sample.multipliers
           Sample.birdhouses Sample.decimal_int Sample.unknown_target
           "400" "100" ["0"] 400 100 388 5);
    try reflexivity; lia.
Defined.

Lemma get_inputs_accepts_witness :
  exists text text' more minimum target_xp,
    pending Sample.plain_session = text :: text' :: more /\
    Sample.decimal_int text = Ok 400 /\ Sample.decimal_int text' = Ok 20 /\
    level_of Sample.levels 5 = Some minimum /\ minimum <= 400 /\
    level_of Sample.levels 20 = Some target_xp /\
    400 <= target_xp /\
    mk_world ["0"]
      [Prompt "What is your current Hunter xp? (Example: 2224614) ";
       Prompt "What is your target Hunter level? (Example: 99) "]
    = mk_world more
        (shown Sample.plain_session
         ++ [Prompt "What is your current Hunter xp? (Example: 2224614) ";
             Prompt "What is your target Hunter level? (Example: 99) "])%list /\
    (levels_ascending Sample.levels = true -> 5 <= 20).
Proof.
  apply (get_inputs_accepts Sample.levels Sample.decimal_int
           Sample.plain_session 400 20).
  reflexivity.
Defined.

Lemma get_relic_multiplier_sound_witness :
  get_relic_multiplier Sample.decimal_int Sample.relic_answers
  = (Ok 3,
     mk_world ["7"]
       (rejection ++ rejection
        ++ [Prompt "What tier have you unlocked? (1-7) "])%list) /\
  1 <= 3 <= 7.
Proof.
  split; [reflexivity|].
  apply (get_relic_multiplier_sound Sample.decimal_int Sample.relic_answers 3
           (mk_world ["7"]
              (rejection ++ rejection
               ++ [Prompt "What tier have you unlocked? (1-7) "])%list)).
  reflexivity.
Defined.

Lemma get_relic_multiplier_runs_out_witness :
  get_relic_multiplier Sample.decimal_int Sample.relic_refused
  = (Raise EOFError,
     mk_world []
       (shown Sample.relic_refused
        ++ flat_map (fun _ => rejection) (pending Sample.relic_refused)
        ++ [Prompt "What tier have you unlocked? (1-7) "])%list).
Proof.
  apply (get_relic_multiplier_runs_out Sample.decimal_int Sample.relic_refused).
  constructor; [exists 9; split; [reflexivity | lia]|].
  constructor; [exists 0; split; [reflexivity | lia]|].
  constructor.
Defined.

Lemma session_displays_plan_witness :
  exists plan,
    (forall fuel, (List.length plan < fuel)%nat ->
        calc_trips_to_target Sample.levels fuel 400 20 Sample.birdhouses
        = Some (Ok plan) /\
        main Sample.levels Sample.multipliers Sample.birdhouses
          Sample.decimal_int fuel Sample.plain_session
        = Some (Ok (Some plan),
                mk_world []
                  (shown Sample.plain_session
                   ++ [Prompt "What is your current Hunter xp? (Example: 2224614) ";
                       Prompt "What is your target Hunter level? (Example: 99) ";
                       Prompt "Type 1 if this is Leagues. ";
                       Print (newline ++ "Starting from "
                              ++ str_of_int 400
                              ++ "xp, you will need:" ++ newline)]
                   ++ flat_map show_items plan)%list)) /\
    (forall fuel, (fuel <= List.length plan)%nat ->
        main Sample.levels Sample.multipliers Sample.birdhouses
          Sample.decimal_int fuel Sample.plain_session = None) /\
    (forall fuel st0,
        initial_state Sample.levels 400 = Ok st0 ->
        divisions_exact Sample.levels fuel 20 Sample.birdhouses st0).
Proof.
  apply (session_displays_plan Sample.levels Sample.multipliers
           Sample.birdhouses Sample.decimal_int eq_refl sample_unique_keys
           sample_has_unlock
           ("Regular birdhouse", Sample.regular)
           [("Oak birdhouse", Sample.oak)] eq_refl eq_refl
           Sample.plain_session "400" "20" "0" [] 400 20 388 4470);
    try reflexivity; try lia; try discriminate;
    [exact sample_thresholds_in_range | exact sample_yields_in_range].
Defined.

Lemma leagues_session_displays_plan_witness :
  exists plan,
    (forall fuel, (List.length plan < fuel)%nat ->
        calc_trips_to_target Sample.levels fuel 400 20
          (scale_birdhouses 8 Sample.birdhouses) = Some (Ok plan) /\
        main Sample.levels Sample.multipliers Sample.birdhouses
          Sample.decimal_int fuel Sample.leagues_session
        = Some (Ok (Some plan),
                mk_world []
                  (shown Sample.leagues_session
                   ++ [Prompt "What is your current Hunter xp? (Example: 2224614) ";
                       Prompt "What is your target Hunter level? (Example: 99) ";
                       Prompt "Type 1 if this is Leagues. ";
                       Prompt "What tier have you unlocked? (1-7) ";
                       Print ("Your XP modifier is " ++ str_of_int 8);
                       Print (newline ++ "Starting from "
                              ++ str_of_int 400
                              ++ "xp, you will need:" ++ newline)]
                   ++ flat_map show_items plan)%list)) /\
    (forall fuel, (fuel <= List.length plan)%nat ->
        main Sample.levels Sample.multipliers Sample.birdhouses
          Sample.decimal_int fuel Sample.leagues_session = None) /\
    (forall fuel st0,
        initial_state Sample.levels 400 = Ok st0 ->
        divisions_exact Sample.levels fuel 20
          (scale_birdhouses 8 Sample.birdhouses) st0).
Proof.
  apply (leagues_session_displays_plan Sample.levels Sample.multipliers
           Sample.birdhouses Sample.decimal_int eq_refl sample_unique_keys
           sample_has_unlock
           ("Regular birdhouse", Sample.regular)
           [("Oak birdhouse", Sample.oak)] eq_refl eq_refl
           Sample.leagues_session "400" "20" "2" [] 400 20 388 4470 2 8);
    try reflexivity; try lia;
    [exact sample_thresholds_in_range | exact sample_scaled_yields_in_range].
Defined.

Lemma plan_follows_tier_order_witness :
  388 <= 400 /\
  NoDup (map (fun r => current_tier (snd (fst r)))
           (loop_iterations Sample.levels 3 20 Sample.birdhouses
              (mk_state 400 5 []))).
Proof.
  split; [lia|].
  refine (proj2 (proj2 (proj2 (proj2
    (plan_follows_tier_order Sample.levels 20 Sample.birdhouses eq_refl
       sample_unique_keys sample_positive_yield
       ("Regular birdhouse", Sample.regular)
       [("Oak birdhouse", Sample.oak)] 5 388 eq_refl eq_refl eq_refl
       3 400 (mk_state 400 5 []) sample_thresholds_in_range
       sample_yields_in_range _ _)))));
    [lia | reflexivity].
Defined.

Example sample_plan_order :
  map (fun r => current_tier (snd (fst r)))
    (loop_iterations Sample.levels 3 20 Sample.birdhouses (mk_state 400 5 []))
  = ["Regular birdhouse"; "Oak birdhouse"] /\
  map (fun r => current_position Sample.birdhouses (fst (fst r)))
    (loop_iterations Sample.levels 3 20 Sample.birdhouses (mk_state 400 5 []))
  = [0%nat; 1%nat].
Proof. split; reflexivity. Qed.

End MoreOnTheSample.
